(** * Server-side rendering pipeline of [src/server.js]

    A shallow embedding of the Express router defined in [src/server.js]:
    the page-asset filters, the SEO aggregation loop, the catch-all request
    handler with its promise chain and its two [catch] sites, and the
    [/manifest.json] handler with the process-shared [config] object.

    Functions imported from other packages ([core/utils/bundler],
    [core/utils/renderer], [react-dom/server], ...) are collaborators: they
    are fields of a record the handler is parameterised by. *)

From Stdlib Require Import ZArith Ascii String List.
From stdpp Require Import base option list strings gmap fin_maps pretty.

Set Warnings "-register-all".
Local Open Scope string_scope.
Local Open Scope Z_scope.

(** ** JavaScript strings *)

Module JsString.

(** [s.split(sep)] for a one-character separator.  The result is never
    empty: [split sep ""] is [[""]]. *)
Fixpoint split (sep : ascii) (s : string) : list string :=
  match s with
  | EmptyString => [EmptyString]
  | String c s' =>
      if Ascii.eqb c sep then EmptyString :: split sep s'
      else match split sep s' with
           | [] => [String c EmptyString]
           | h :: t => String c h :: t
           end
  end.

(** [arr.pop()] read for its result only; [undefined] on the empty array
    is rendered as the empty string (it cannot arise after [split]). *)
Definition pop (arr : list string) : string := List.last arr EmptyString.

(** [_.startsWith(s, target)]. *)
Definition startsWith (s target : string) : bool := String.prefix target s.

(** [s.indexOf(pat)]: position of the first occurrence, [-1] if none. *)
Definition indexOf (s pat : string) : Z :=
  match String.index 0 pat s with
  | Some n => Z.of_nat n
  | None => -1
  end.

End JsString.

(** ** Page-asset filters (the two [_.filter] calls of the catch-all handler) *)

(** [css.split("/").pop()] *)
Definition fileName (p : string) : string :=
  JsString.pop (JsString.split "/"%char p).

(** [pat] occurs in [s] at some position. *)
Definition occurs_in (pat s : string) : Prop :=
  exists m : nat, String.substring m (String.length pat) s = pat.

(** Predicate of the [currentRouteCss] filter. *)
Definition keepCss (mod_ : string) (css : string) : bool :=
  negb (JsString.startsWith (fileName css) "mod-"
        && (JsString.indexOf (fileName css) mod_ =? -1)).

(** Predicate of the [currentRouteJs] filter. *)
Definition keepJs (js : string) : bool :=
  negb (JsString.startsWith (fileName js) "mod-")
  && negb (JsString.startsWith (fileName js) "service-worker.js").

Definition currentRouteCss (allCss : list string) (mod_ : string) : list string :=
  List.filter (keepCss mod_) allCss.

Definition currentRouteJs (allJs : list string) : list string :=
  List.filter keepJs allJs.

(** ** Lodash helpers used by the handlers *)

Module Lodash.

(** [_.get(object, "field", defaultValue)] on a field that is either
    present or [undefined]. *)
Definition get {A : Type} (field : option A) (defaultValue : A) : A :=
  match field with
  | Some v => v
  | None => defaultValue
  end.

(** [_.defaults(object, ...sources)]: sources are applied left to right and
    a property is assigned only while the destination does not have it.
    A property whose value is [undefined] counts as absent, so objects are
    finite maps from the keys that carry a value. *)
Definition defaults (object : gmap string string)
    (sources : list (gmap string string)) : gmap string string :=
  foldl (fun obj src => obj ∪ src) object sources.

(** [_.each(collection, iteratee)] with the iteratee acting on one
    accumulated variable. *)
Definition each {A S : Type} (collection : list A) (iteratee : S -> A -> S)
    (init : S) : S :=
  foldl iteratee init collection.

End Lodash.

(** ** Route definitions and SEO aggregation *)

Record RouteDefinition := {
  path : string;
  seo : option (gmap string string)
}.

(** The [_.each(currentRoutes, r => { seoDetails = _.defaults({}, _.get(r,
    "seo", {}), seoDetails); })] loop, started from [seoDetails = {}]. *)
Definition seoDetailsOf (currentRoutes : list RouteDefinition)
    : gmap string string :=
  Lodash.each currentRoutes
    (fun seoDetails r =>
       Lodash.defaults ∅ [Lodash.get (seo r) ∅; seoDetails])
    ∅.

(** ** Thrown values, completions and promises *)

(** A value that is thrown or that a promise rejects with: an [Error]
    instance (with its optional [statusCode] property) or anything else,
    kept as the string [new Error(value)] would take for its message. *)
Inductive JsThrown :=
  | ErrorObject (message : string) (statusCode : option Z)
  | NotAnError (value : string).

(** Result of a call that may throw. *)
Inductive Completion (A : Type) :=
  | Return (a : A)
  | Throw (e : JsThrown).
Arguments Return {A} a.
Arguments Throw {A} e.

#[global] Instance Completion_ret : MRet Completion := fun A a => Return a.

#[global] Instance Completion_bind : MBind Completion := fun A B k c =>
  match c with
  | Return a => k a
  | Throw e => Throw e
  end.

(** A promise is represented by the way it settles. *)
Inductive Settlement :=
  | Fulfilled
  | Rejected (reason : JsThrown).

(** [Promise.all(promises)] with the fulfilment values dropped (the handler's
    [then] callback ignores them).  The list gives the promises in the order
    in which they settle, so the first rejection in the list is the first one
    observed. *)
Fixpoint Promise_all (promises : list Settlement) : Settlement :=
  match promises with
  | [] => Fulfilled
  | Fulfilled :: rest => Promise_all rest
  | Rejected reason :: _ => Rejected reason
  end.

(** [v || d] for a numeric or [undefined] [v]. *)
Definition js_or (v : option Z) (d : Z) : Z :=
  match v with
  | Some n => if n =? 0 then d else n
  | None => d
  end.

(** Truthiness of a string-or-[undefined] value, as tested by [if (v)]. *)
Definition truthy (v : option string) : bool :=
  match v with
  | Some EmptyString => false
  | Some _ => true
  | None => false
  end.

(** ** The response writer *)

(** Calls made on Express's [res], in the order they are made. *)
Inductive ResCall :=
  | ResSetHeader (name value : string)
  | ResStatus (code : Z)
  | ResRedirect (target : string)
  | ResSend (body : string).

(** A call that ends the response. *)
Definition ends_response (c : ResCall) : bool :=
  match c with
  | ResRedirect _ | ResSend _ => true
  | ResSetHeader _ _ | ResStatus _ => false
  end.

Definition responses_emitted (calls : list ResCall) : nat :=
  length (List.filter ends_response calls).

(** The status the handler asks for: the argument of its last [res.status]
    call (200, the writer's initial value, if it makes none). *)
Definition status_set (calls : list ResCall) : Z :=
  foldl (fun st c => match c with ResStatus n => n | _ => st end) 200 calls.

(** Bodies passed to [res.send]. *)
Definition bodies_sent (calls : list ResCall) : list string :=
  omap (fun c => match c with ResSend b => Some b | _ => None end) calls.

(** Targets passed to [res.redirect]. *)
Definition redirects_issued (calls : list ResCall) : list string :=
  omap (fun c => match c with ResRedirect u => Some u | _ => None end) calls.

(** ** The catch-all handler, [app.get("*", ...)] *)

(** What became of one run of the handler.  [Answered calls]: the handler
    made [calls] on [res].  [UnhandledRejection e]: the promise chain ended
    rejected with nobody listening, nothing was written.  [Propagated e]: an
    exception left the handler synchronously, nothing was written by it. *)
Inductive HandlerResult :=
  | Answered (calls : list ResCall)
  | UnhandledRejection (e : JsThrown)
  | Propagated (e : JsThrown).

Definition calls_of (r : HandlerResult) : list ResCall :=
  match r with
  | Answered calls => calls
  | UnhandledRejection _ | Propagated _ => []
  end.

Section CatchAll.

(** Opaque data of the collaborators. *)
Context {Assets RouteTable Storage Api History Store View : Type}.

Record Request := {
  req_path : string;
  req_assets : Assets
}.

(** The per-request [context] object; [status] and [url] are the two
    properties the view layer may set while rendering. *)
Record RequestContext := {
  storage : Storage;
  api : Api;
  pathname : string;
  status : option Z;
  url : option string
}.

(** Props of the [<Html>] element handed to the serializer; [html_seo] is
    [None] where the element is written without a [seo] prop. *)
Record HtmlProps := {
  stylesheets : list string;
  scripts : list string;
  html_seo : option (gmap string string);
  children : View
}.

(** What [getPreloadDataPromises] hands back: the promises, by the way and
    order they settle, and the store as the preload steps have left it when
    the promise chain's callback runs. *)
Record PreloadRun := {
  promises : list Settlement;
  store_settled : Store
}.

(** The imported functions and constants.  A render call returns the view
    tree together with the context as it leaves it.  [Routes] stands for the
    handler's [routes], the shallow copy [_.assignIn({}, Routes)]. *)
Record Collaborators := {
  Routes : RouteTable;
  extractFilesFromAssets : Assets -> string -> list string;
  getModuleByUrl : RouteTable -> string -> string;
  getRouteFromPath : RouteTable -> string -> list RouteDefinition;
  newStorage : Request -> Storage;
  newApi : Storage -> Api;
  createHistory : History;
  configureStore : History -> Store;
  getPreloadDataPromises :
    list RouteDefinition -> Storage -> Api -> Store -> Completion PreloadRun;
  renderNotFoundPage :
    string -> RequestContext -> History -> Store ->
    Completion (View * RequestContext);
  renderRoutesByUrl :
    string -> RequestContext -> list RouteDefinition -> Storage -> Store ->
    Api -> History -> Completion (View * RequestContext);
  renderErrorPage : JsThrown -> Store -> Completion View;
  renderToStaticMarkup : HtmlProps -> Completion string
}.

Variable E : Collaborators.

(** [if (!(err instanceof Error)) err = new Error(err);] *)
Definition asError (err : JsThrown) : JsThrown :=
  match err with
  | ErrorObject message statusCode => ErrorObject message statusCode
  | NotAnError value => ErrorObject value None
  end.

(** [err.statusCode = err.statusCode || 500;] *)
Definition withDefaultStatusCode (err : JsThrown) : JsThrown :=
  match err with
  | ErrorObject message statusCode =>
      ErrorObject message (Some (js_or statusCode 500))
  | NotAnError value => NotAnError value
  end.

Definition getErrorComponent (err : JsThrown) (store : Store)
    : Completion View :=
  renderErrorPage E (withDefaultStatusCode (asError err)) store.

(** [html = ReactDOMServer.renderToStaticMarkup(<Html ...>{routerComponent}
    </Html>); return res.status(statusCode).send(`<!DOCTYPE html>${html}`);] *)
Definition sendHtml (statusCode : Z) (css js : list string)
    (seoProp : option (gmap string string)) (routerComponent : View)
    : Completion (list ResCall) :=
  html ← renderToStaticMarkup E
           {| stylesheets := css; scripts := js;
              html_seo := seoProp; children := routerComponent |};
  mret [ResStatus statusCode; ResSend ("<!DOCTYPE html>" +:+ html)].

(** The locals computed before the [try] block. *)
Definition allCss (req : Request) : list string :=
  extractFilesFromAssets E (req_assets req) ".css".
Definition allJs (req : Request) : list string :=
  extractFilesFromAssets E (req_assets req) ".js".
Definition moduleOf (req : Request) : string :=
  getModuleByUrl E (Routes E) (req_path req).
Definition currentRoutes (req : Request) : list RouteDefinition :=
  getRouteFromPath E (Routes E) (req_path req).
Definition pageCss (req : Request) : list string :=
  currentRouteCss (allCss req) (moduleOf req).
Definition pageJs (req : Request) : list string :=
  currentRouteJs (allJs req).
Definition contextOf (req : Request) : RequestContext :=
  {| storage := newStorage E req;
     api := newApi E (newStorage E req);
     pathname := req_path req;
     status := None;
     url := None |}.
Definition initialStore : Store := configureStore E (createHistory E).

(** [getPreloadDataPromises({routes: currentRoutes, storage, api, store})] *)
Definition preload (req : Request) : Completion PreloadRun :=
  getPreloadDataPromises E (currentRoutes req) (newStorage E req)
    (newApi E (newStorage E req)) initialStore.

(** The [if (!currentRoutes.length) ... else ...] render. *)
Definition renderStage (req : Request) (store : Store)
    : Completion (View * RequestContext) :=
  if (length (currentRoutes req) =? 0)%nat
  then renderNotFoundPage E (req_path req) (contextOf req)
         (createHistory E) store
  else renderRoutesByUrl E (req_path req) (contextOf req)
         (currentRoutes req) (newStorage E req) store
         (newApi E (newStorage E req)) (createHistory E).

(** The [then] callback.  It returns the value the closure variable
    [statusCode] holds when the callback ends, and how it ends. *)
Definition thenCallback (req : Request) (store : Store) (statusCode : Z)
    : Z * Completion (list ResCall) :=
  let seoDetails := seoDetailsOf (currentRoutes req) in
  match renderStage req store with
  | Throw err => (statusCode, Throw err)
  | Return (routerComponent, context) =>
      let statusCode := js_or (status context) 200 in
      if truthy (url context)
      then (statusCode,
            Return [ResStatus statusCode;
                    ResRedirect (Lodash.get (url context) "")])
      else (statusCode,
            sendHtml statusCode (pageCss req) (pageJs req)
              (Some seoDetails) routerComponent)
  end.

(** The body shared by the promise [catch] callback and the outer [catch]
    block; [statusCode] is whatever the closure variable holds. *)
Definition catchCallback (req : Request) (store : Store) (statusCode : Z)
    (err : JsThrown) : Completion (list ResCall) :=
  routerComponent ← getErrorComponent err store;
  sendHtml statusCode (pageCss req) (pageJs req) None routerComponent.

(** How the promise chain ends: nothing listens after the [catch]. *)
Definition settle (c : Completion (list ResCall)) : HandlerResult :=
  match c with
  | Return calls => Answered calls
  | Throw e => UnhandledRejection e
  end.

(** The handler from its [try] block on ([statusCode] starts at 200): the
    calls it makes on [res] when the writer goes along with each of them.
    What Node's writer refuses is added in [serve] below. *)
Definition handler (req : Request) : HandlerResult :=
  let statusCode := 200 in
  match preload req with
  | Throw err =>
      match catchCallback req initialStore statusCode err with
      | Return calls => Answered calls
      | Throw e => Propagated e
      end
  | Return run =>
      let store := store_settled run in
      match Promise_all (promises run) with
      | Rejected err => settle (catchCallback req store statusCode err)
      | Fulfilled =>
          match thenCallback req store statusCode with
          | (_, Return calls) => Answered calls
          | (statusCode, Throw err) =>
              settle (catchCallback req store statusCode err)
          end
      end
  end.

End CatchAll.

Arguments Request : clear implicits.
Arguments RequestContext : clear implicits.
Arguments HtmlProps : clear implicits.
Arguments PreloadRun : clear implicits.
Arguments Collaborators : clear implicits.

(** ** Observations on a request *)

Section Observations.

Context {Assets RouteTable Storage Api History Store View : Type}.
Variable E : Collaborators Assets RouteTable Storage Api History Store View.

(** The preload stage of [req] failed with [err], leaving [store]: either
    [getPreloadDataPromises] threw, or one of its promises rejected. *)
Definition preloadFailed (req : Request Assets) (store : Store)
    (err : JsThrown) : Prop :=
  (preload E req = Throw err /\ store = initialStore E)
  \/ (exists run, preload E req = Return run
                  /\ Promise_all (promises run) = Rejected err
                  /\ store = store_settled run).

(** The same collaborators with other page and not-found renderers. *)
Definition withRenderers
    (notFound : string -> RequestContext Storage Api -> History -> Store ->
                Completion (View * RequestContext Storage Api))
    (page : string -> RequestContext Storage Api -> list RouteDefinition ->
            Storage -> Store -> Api -> History ->
            Completion (View * RequestContext Storage Api))
    : Collaborators Assets RouteTable Storage Api History Store View :=
  {| Routes := Routes E;
     extractFilesFromAssets := extractFilesFromAssets E;
     getModuleByUrl := getModuleByUrl E;
     getRouteFromPath := getRouteFromPath E;
     newStorage := newStorage E;
     newApi := newApi E;
     createHistory := createHistory E;
     configureStore := configureStore E;
     getPreloadDataPromises := getPreloadDataPromises E;
     renderNotFoundPage := notFound;
     renderRoutesByUrl := page;
     renderErrorPage := renderErrorPage E;
     renderToStaticMarkup := renderToStaticMarkup E |}.

(** The error document for [err]: the error view inside [<Html>] with the
    page's stylesheets and scripts and no [seo] prop. *)
Definition errorDocument (req : Request Assets) (store : Store)
    (err : JsThrown) : Completion string :=
  routerComponent ← getErrorComponent E err store;
  html ← renderToStaticMarkup E
           {| stylesheets := pageCss E req; scripts := pageJs E req;
              html_seo := None; children := routerComponent |};
  mret ("<!DOCTYPE html>" +:+ html).

End Observations.

(** ** Render outcomes

    The handler has no outcome type of its own.  [RenderOutcome] names its
    four exits: the page sent, the not-found view sent, the redirect, the
    error view sent; each with the status handed to [res.status]. *)

Inductive RenderOutcome (View : Type) :=
  | Page (viewTree : View) (statusCode : Z)
  | NotFound (viewTree : View) (statusCode : Z)
  | Redirect (target : string) (statusCode : Z)
  | Error (viewTree : View) (statusCode : Z).
Arguments Page {View} viewTree statusCode.
Arguments NotFound {View} viewTree statusCode.
Arguments Redirect {View} target statusCode.
Arguments Error {View} viewTree statusCode.

Section Outcomes.

Context {Assets RouteTable Storage Api History Store View : Type}.
Variable E : Collaborators Assets RouteTable Storage Api History Store View.

(** The calls on [res] that carry out an outcome. *)
Definition respond (req : Request Assets) (o : RenderOutcome View)
    : Completion (list ResCall) :=
  match o with
  | Page v st | NotFound v st =>
      sendHtml E st (pageCss E req) (pageJs E req)
        (Some (seoDetailsOf (currentRoutes E req))) v
  | Redirect u st => Return [ResStatus st; ResRedirect u]
  | Error v st => sendHtml E st (pageCss E req) (pageJs E req) None v
  end.

(** Entering the error path with [statusCode = st]: the outcome is [Error]
    provided the error view renders and serializes. *)
Definition errorOutcome (req : Request Assets) (store : Store) (st : Z)
    (err : JsThrown) : option (RenderOutcome View) :=
  match getErrorComponent E err store with
  | Return v =>
      match respond req (Error v st) with
      | Return _ => Some (Error v st)
      | Throw _ => None
      end
  | Throw _ => None
  end.

(** Which exit a request takes; [None] when the error path itself throws. *)
Definition renderOutcome (req : Request Assets)
    : option (RenderOutcome View) :=
  match preload E req with
  | Throw err => errorOutcome req (initialStore E) 200 err
  | Return run =>
      match Promise_all (promises run) with
      | Rejected err => errorOutcome req (store_settled run) 200 err
      | Fulfilled =>
          match renderStage E req (store_settled run) with
          | Throw err => errorOutcome req (store_settled run) 200 err
          | Return (v, context) =>
              let st := js_or (status context) 200 in
              if truthy (url context)
              then Some (Redirect (Lodash.get (url context) "") st)
              else
                let o := if (length (currentRoutes E req) =? 0)%nat
                         then NotFound v st else Page v st in
                match respond req o with
                | Return _ => Some o
                | Throw err => errorOutcome req (store_settled run) st err
                end
          end
      end
  end.

End Outcomes.

(** ** The [/manifest.json] handler and the shared [config] object *)

(** JavaScript values as far as the manifest needs them.  Objects that
    outlive a request ([config] and what it refers to) live in the heap and
    are held through [VRef]; [VArr] and [VObj] are literals built by the
    handler and written once. *)
Inductive JsVal :=
  | VUndefined
  | VStr (s : string)
  | VNum (n : Z)
  | VArr (items : list JsVal)
  | VObj (fields : list (string * JsVal))
  | VRef (l : nat).

Section Manifest.

(** The bundler's [require] of an image, [JSON.stringify], and the heap
    address of the module-level [config] object. *)
Variable require : string -> string.
Variable JSON_stringify : gmap nat (gmap string JsVal) -> JsVal -> string.
Variable config : nat.

(** [object.key] *)
Definition getProp (heap : gmap nat (gmap string JsVal)) (object : JsVal)
    (key : string) : JsVal :=
  match object with
  | VRef l =>
      match heap !! l with
      | Some o => default VUndefined (o !! key)
      | None => VUndefined
      end
  | _ => VUndefined
  end.

(** [_.set(object, key, value)] for a one-segment path: writes into the
    object itself; [null], [undefined] and primitives are left alone. *)
Definition lodash_set (heap : gmap nat (gmap string JsVal)) (object : JsVal)
    (key : string) (value : JsVal) : gmap nat (gmap string JsVal) :=
  match object with
  | VRef l =>
      match heap !! l with
      | Some o => <[l := <[key := value]> o]> heap
      | None => heap
      end
  | _ => heap
  end.

Definition availableSizes : list Z := [72; 96; 128; 144; 152; 192; 384; 512].

Definition icons : JsVal :=
  VArr (map (fun size =>
               VObj [("src",
                      VStr (require ("resources/images/pwa/icon-" +:+ pretty size
                                     +:+ "x" +:+ pretty size +:+ ".png")));
                     ("sizes", VStr (pretty size +:+ "x" +:+ pretty size))])
            availableSizes).

(** One run of the handler on the heap it finds; [req] is not read. *)
Definition manifestHandler {Req : Type} (req : Req)
    (heap : gmap nat (gmap string JsVal))
    : gmap nat (gmap string JsVal) * list ResCall :=
  let pwa := getProp heap (VRef config) "pwa" in
  let heap := lodash_set heap pwa "icons" icons in
  (heap,
   [ResSetHeader "Content-Type" "application/manifest+json";
    ResSetHeader "Cache-Control" "private, no-cache, no-store, must-revalidate";
    ResSetHeader "Expires" "-1";
    ResSetHeader "Pragma" "no-cache";
    ResSend (JSON_stringify heap pwa)]).

End Manifest.

(** ** Concrete worlds

    Small collaborators to run the handlers on: assets are a pair of lists
    (stylesheets, scripts), views are strings, the remaining data are [unit]. *)

Module Scenario.

Definition seoTags (m : option (gmap string string)) : string :=
  match m with
  | None => ""
  | Some m =>
      "<meta " +:+
      String.concat ";" (map (fun kv => fst kv +:+ "=" +:+ snd kv) (map_to_list m))
      +:+ ">"
  end.

Definition markup (props : HtmlProps string) : Completion string :=
  Return ("<html><head>"
          +:+ String.concat "" (map (fun c => "<link " +:+ c +:+ ">") (stylesheets props))
          +:+ String.concat "" (map (fun j => "<script " +:+ j +:+ ">") (scripts props))
          +:+ seoTags (html_seo props)
          +:+ "</head><body>" +:+ children props +:+ "</body></html>").

Definition errorPage (err : JsThrown) (store : unit) : Completion string :=
  match err with
  | ErrorObject message statusCode =>
      Return ("error " +:+ pretty (js_or statusCode 0) +:+ ": " +:+ message)
  | NotAnError value => Return ("error: " +:+ value)
  end.

Definition brokenErrorPage (err : JsThrown) (store : unit) : Completion string :=
  Throw (ErrorObject "error view failed" None).

(** A view layer that returns [view] and leaves [setStatus] and [setUrl]
    on the context (when given). *)
Definition viewLayer (view : string) (setStatus : option Z)
    (setUrl : option string) (context : RequestContext unit unit)
    : Completion (string * RequestContext unit unit) :=
  Return (view,
          {| storage := storage context; api := api context;
             pathname := pathname context;
             status := from_option Some (status context) setStatus;
             url := from_option Some (url context) setUrl |}).

Definition world (mod_ : string) (chain : list RouteDefinition)
    (pre : Completion (list Settlement))
    (render : RequestContext unit unit ->
              Completion (string * RequestContext unit unit))
    (errorView : JsThrown -> unit -> Completion string)
    : Collaborators (list string * list string) unit unit unit unit unit string :=
  {| Routes := tt;
     extractFilesFromAssets := fun assets ext =>
       if String.eqb ext ".css" then fst assets else snd assets;
     getModuleByUrl := fun _ _ => mod_;
     getRouteFromPath := fun _ _ => chain;
     newStorage := fun _ => tt;
     newApi := fun _ => tt;
     createHistory := tt;
     configureStore := fun _ => tt;
     getPreloadDataPromises := fun _ _ _ _ =>
       promises ← pre;
       mret {| promises := promises; store_settled := tt |};
     renderNotFoundPage := fun _ context _ _ => render context;
     renderRoutesByUrl := fun _ context _ _ _ _ _ => render context;
     renderErrorPage := errorView;
     renderToStaticMarkup := markup |}.

Definition assets : list string * list string :=
  (["/build/common.css"; "/build/mod-home.css"; "/build/mod-blog.css"],
   ["/build/app.js"; "/build/mod-home.js"; "/build/service-worker.js"]).

Definition request (p : string) : Request (list string * list string) :=
  {| req_path := p; req_assets := assets |}.

Definition root : RouteDefinition :=
  {| path := "/"; seo := Some {["title" := "A"]} |}.
Definition leafBoth : RouteDefinition :=
  {| path := "/home"; seo := Some (<["title" := "B"]> {["desc" := "D"]}) |}.
Definition leafDesc : RouteDefinition :=
  {| path := "/home"; seo := Some {["desc" := "D"]} |}.
Definition bare : RouteDefinition :=
  {| path := "/plain"; seo := None |}.

Definition boom : JsThrown := ErrorObject "boom" None.
Definition forbidden : JsThrown := ErrorObject "forbidden" (Some 403).

(** One of two preload steps rejects, with an error that has no
    [statusCode]. *)
Definition preloadRejects : Collaborators _ _ _ _ _ _ _ :=
  world "home" [root; leafBoth] (Return [Fulfilled; Rejected boom])
    (viewLayer "page" None None) errorPage.

(** The rejection carries [statusCode = 403]. *)
Definition preloadRejects403 : Collaborators _ _ _ _ _ _ _ :=
  world "home" [root; leafBoth] (Return [Rejected forbidden; Fulfilled])
    (viewLayer "page" None None) errorPage.

(** The render throws. *)
Definition renderThrows : Collaborators _ _ _ _ _ _ _ :=
  world "home" [root; leafBoth] (Return [Fulfilled])
    (fun _ => Throw boom) errorPage.


(** No route matches and the not-found view sets [context.status = 404]. *)
Definition noMatch404 : Collaborators _ _ _ _ _ _ _ :=
  world "" [] (Return []) (viewLayer "not found" (Some 404) None) errorPage.

(** The leaf's render sets [context.url = "/login"] and no status. *)
Definition redirects : Collaborators _ _ _ _ _ _ _ :=
  world "home" [root; leafBoth] (Return [Fulfilled])
    (viewLayer "page" None (Some "/login")) errorPage.

(** The same with [context.status = 301]. *)
Definition redirects301 : Collaborators _ _ _ _ _ _ _ :=
  world "home" [root; leafBoth] (Return [Fulfilled])
    (viewLayer "page" (Some 301) (Some "/login")) errorPage.

(** A plain page. *)
Definition plainPage : Collaborators _ _ _ _ _ _ _ :=
  world "home" [root; leafDesc] (Return [Fulfilled; Fulfilled])
    (viewLayer "page" None None) errorPage.

(** A preload step rejects and the error view itself throws. *)
Definition errorViewThrows : Collaborators _ _ _ _ _ _ _ :=
  world "home" [root; leafBoth] (Return [Rejected boom])
    (viewLayer "page" None None) brokenErrorPage.

(** Heap of the manifest scenario: [config] at address 0 with its [pwa]
    object at address 1. *)
Definition heap0 : gmap nat (gmap string JsVal) :=
  <[0%nat := <["pwa" := VRef 1]> {["port" := VNum 3003]}]>
    {[1%nat := <["name" := VStr "React PWA"]> {["display" := VStr "standalone"]}]}.

Definition stringify (heap : gmap nat (gmap string JsVal)) (v : JsVal) : string :=
  match v with
  | VRef l =>
      match heap !! l with
      | Some o => "{" +:+ String.concat "," (map fst (map_to_list o)) +:+ "}"
      | None => ""
      end
  | _ => ""
  end.

End Scenario.

(** ** The [/_globals] handler *)

Section Globals.

Context {Assets RouteTable Storage Api History Store View : Type}.
Variable E : Collaborators Assets RouteTable Storage Api History Store View.

(** [JSON.stringify({routes: Routes, allCss, allJs})], by its three fields. *)
Variable JSON_stringify_globals :
  RouteTable -> list string -> list string -> string.

Definition globalsHandler (req : Request Assets) : list ResCall :=
  [ResSetHeader "Content-Type" "application/json";
   ResSetHeader "Cache-Control" "private, no-cache, no-store, must-revalidate";
   ResSetHeader "Expires" "-1";
   ResSetHeader "Pragma" "no-cache";
   ResSend (JSON_stringify_globals (Routes E) (allCss E req) (allJs E req))].

(** The same collaborators with another error view and serializer. *)
Definition withOutput
    (errorView : JsThrown -> Store -> Completion View)
    (serializer : HtmlProps View -> Completion string)
    : Collaborators Assets RouteTable Storage Api History Store View :=
  {| Routes := Routes E;
     extractFilesFromAssets := extractFilesFromAssets E;
     getModuleByUrl := getModuleByUrl E;
     getRouteFromPath := getRouteFromPath E;
     newStorage := newStorage E;
     newApi := newApi E;
     createHistory := createHistory E;
     configureStore := configureStore E;
     getPreloadDataPromises := getPreloadDataPromises E;
     renderNotFoundPage := renderNotFoundPage E;
     renderRoutesByUrl := renderRoutesByUrl E;
     renderErrorPage := errorView;
     renderToStaticMarkup := serializer |}.

End Globals.

(** ** Module initialisation: [currentDir] *)

Section CurrentDir.

(** Node's [path.dirname]. *)
Variable path_dirname : string -> string.

(** [arg.indexOf("/server.js") !== -1] *)
Definition isServerScript (arg : string) : bool :=
  negb (JsString.indexOf arg "/server.js" =? -1).

(** [_.find(process.argv, arg => ...)] *)
Definition findServerScript (argv : list string) : option string :=
  List.find isServerScript argv.

(** The value of [currentDir] once the module is loaded; [dirname_] is
    [__dirname] and [NODE_ENV] is [process.env.NODE_ENV]. *)
Definition currentDir (dirname_ : string) (NODE_ENV : option string)
    (argv : list string) : string :=
  match NODE_ENV with
  | Some env =>
      if String.eqb env "production"
      then if truthy (findServerScript argv)
           then path_dirname (Lodash.get (findServerScript argv) "")
           else dirname_
      else dirname_
  | None => dirname_
  end.

End CurrentDir.

(** ** More concrete worlds *)

Module Scenario2.


(** A serializer that throws on every document that has a [seo] prop. *)
Definition pickyMarkup (props : HtmlProps string) : Completion string :=
  match html_seo props with
  | Some _ => Throw (ErrorObject "markup failed" None)
  | None => Scenario.markup props
  end.


(** [getPreloadDataPromises] throws and the error view throws too. *)
Definition preloadThrowsErrorViewThrows : Collaborators _ _ _ _ _ _ _ :=
  Scenario.world "home" [Scenario.root] (Throw Scenario.boom)
    (Scenario.viewLayer "page" None None) Scenario.brokenErrorPage.

(** A heap whose [config] has no [pwa]. *)
Definition heapNoPwa : gmap nat (gmap string JsVal) :=
  {[0%nat := {["port" := VNum 3003]}]}.

Definition globalsBody (routes : unit) (css js : list string) : string :=
  "css:" +:+ String.concat "," css +:+ ";js:" +:+ String.concat "," js.

Definition dirname (p : string) : string :=
  String.concat "/" (removelast (JsString.split "/"%char p)).

End Scenario2.

(** ** The writer: Express on Node

    [handler] above gives the calls a run makes on [res] when the writer
    goes along with them.  Two things the writer does on its own are added
    here.  Node refuses to write a head whose status is outside 100..999:
    [res.send] then throws a [RangeError] and nothing goes out.  And the
    one-argument [res.redirect(url)] replaces whatever status is stored by
    302 before it writes ([res.status] only stores the code). *)

Definition statusAccepted (code : Z) : bool :=
  (100 <=? code) && (code <=? 999).

Definition invalidStatusCode (code : Z) : JsThrown :=
  ErrorObject ("Invalid status code: " +:+ pretty code) None.

Definition isSend (c : ResCall) : bool :=
  match c with
  | ResSend _ => true
  | _ => false
  end.

(** The calls of one callback contain a [send] under a refused status. *)
Definition refusedSend (calls : list ResCall) : bool :=
  existsb isSend calls && negb (statusAccepted (status_set calls)).

(** A callback carried out on Node: it ends as computed, unless its [send]
    is refused, in which case it throws. *)
Definition onNode (c : Completion (list ResCall)) : Completion (list ResCall) :=
  calls ← c;
  if refusedSend calls then Throw (invalidStatusCode (status_set calls))
  else mret calls.

(** Status and [Location] of the response that goes out for the calls made:
    [res.send] writes under the stored status, the one-argument
    [res.redirect] under 302. *)
Fixpoint wireFrom (code : Z) (calls : list ResCall)
    : option (Z * option string) :=
  match calls with
  | [] => None
  | ResSetHeader _ _ :: rest => wireFrom code rest
  | ResStatus n :: rest => wireFrom n rest
  | ResRedirect target :: _ => Some (302, Some target)
  | ResSend _ :: _ => Some (code, None)
  end.

Definition wire (calls : list ResCall) : option (Z * option string) :=
  wireFrom 200 calls.

Section OnNode.

Context {Assets RouteTable Storage Api History Store View : Type}.
Variable E : Collaborators Assets RouteTable Storage Api History Store View.

Definition thenCallbackOnNode (req : Request Assets) (store : Store)
    (statusCode : Z) : Z * Completion (list ResCall) :=
  ((thenCallback E req store statusCode).1,
   onNode (thenCallback E req store statusCode).2).

Definition catchCallbackOnNode (req : Request Assets) (store : Store)
    (statusCode : Z) (err : JsThrown) : Completion (list ResCall) :=
  onNode (catchCallback E req store statusCode err).

(** The handler of [app.get("*")] run on Node: the control flow of
    [handler], with a throw of [res.send] inside the [then] callback caught
    by the promise [catch], which sends again. *)
Definition serve (req : Request Assets) : HandlerResult :=
  let statusCode := 200 in
  match preload E req with
  | Throw err =>
      match catchCallbackOnNode req (initialStore E) statusCode err with
      | Return calls => Answered calls
      | Throw e => Propagated e
      end
  | Return run =>
      let store := store_settled run in
      match Promise_all (promises run) with
      | Rejected err => settle (catchCallbackOnNode req store statusCode err)
      | Fulfilled =>
          match thenCallbackOnNode req store statusCode with
          | (_, Return calls) => Answered calls
          | (statusCode, Throw err) =>
              settle (catchCallbackOnNode req store statusCode err)
          end
      end
  end.

(** The document of the [then] callback for a rendered view. *)
Definition pageProps (req : Request Assets) (view : View) : HtmlProps View :=
  {| stylesheets := pageCss E req; scripts := pageJs E req;
     html_seo := Some (seoDetailsOf (currentRoutes E req));
     children := view |}.

(** The ways into a [catch]: with which store, under which [statusCode] and
    for which error.  One constructor per place of the source where the
    failure can arise. *)
Inductive EntersCatch (req : Request Assets) : Store -> Z -> JsThrown -> Prop :=
  | catch_preload_throws err :
      preload E req = Throw err ->
      EntersCatch req (initialStore E) 200 err
  | catch_rejection run err :
      preload E req = Return run ->
      Promise_all (promises run) = Rejected err ->
      EntersCatch req (store_settled run) 200 err
  | catch_render_throws run err :
      preload E req = Return run ->
      Promise_all (promises run) = Fulfilled ->
      renderStage E req (store_settled run) = Throw err ->
      EntersCatch req (store_settled run) 200 err
  | catch_markup_throws run view context err :
      preload E req = Return run ->
      Promise_all (promises run) = Fulfilled ->
      renderStage E req (store_settled run) = Return (view, context) ->
      truthy (url context) = false ->
      renderToStaticMarkup E (pageProps req view) = Throw err ->
      EntersCatch req (store_settled run) (js_or (status context) 200) err
  | catch_send_throws run view context html :
      preload E req = Return run ->
      Promise_all (promises run) = Fulfilled ->
      renderStage E req (store_settled run) = Return (view, context) ->
      truthy (url context) = false ->
      renderToStaticMarkup E (pageProps req view) = Return html ->
      statusAccepted (js_or (status context) 200) = false ->
      EntersCatch req (store_settled run) (js_or (status context) 200)
        (invalidStatusCode (js_or (status context) 200)).

(** The dispatch in the words of the specification: which of the four
    outcomes a request produces, with a response that can go out.  Redirect
    and page or not-found need the preload and the render to succeed; an
    error outcome needs a way into a [catch], the error view to render and
    its document to be serialized and accepted. *)
Inductive Produces (req : Request Assets) : RenderOutcome View -> Prop :=
  | produces_redirect run view context :
      preload E req = Return run ->
      Promise_all (promises run) = Fulfilled ->
      renderStage E req (store_settled run) = Return (view, context) ->
      truthy (url context) = true ->
      Produces req (Redirect (Lodash.get (url context) "")
                      (js_or (status context) 200))
  | produces_page run view context html :
      currentRoutes E req <> [] ->
      preload E req = Return run ->
      Promise_all (promises run) = Fulfilled ->
      renderStage E req (store_settled run) = Return (view, context) ->
      truthy (url context) = false ->
      renderToStaticMarkup E (pageProps req view) = Return html ->
      statusAccepted (js_or (status context) 200) = true ->
      Produces req (Page view (js_or (status context) 200))
  | produces_not_found run view context html :
      currentRoutes E req = [] ->
      preload E req = Return run ->
      Promise_all (promises run) = Fulfilled ->
      renderStage E req (store_settled run) = Return (view, context) ->
      truthy (url context) = false ->
      renderToStaticMarkup E (pageProps req view) = Return html ->
      statusAccepted (js_or (status context) 200) = true ->
      Produces req (NotFound view (js_or (status context) 200))
  | produces_error store statusCode err errorView html :
      EntersCatch req store statusCode err ->
      getErrorComponent E err store = Return errorView ->
      renderToStaticMarkup E
        {| stylesheets := pageCss E req; scripts := pageJs E req;
           html_seo := None; children := errorView |} = Return html ->
      statusAccepted statusCode = true ->
      Produces req (Error errorView statusCode).

End OnNode.

(** The render leaves the status 42, which Node refuses. *)
Definition refusedStatus :
    Collaborators (list string * list string) unit unit unit unit unit string :=
  Scenario.world "home" [Scenario.root; Scenario.leafDesc] (Return [Fulfilled])
    (Scenario.viewLayer "page" (Some 42) None) Scenario.errorPage.

(** * Properties *)

(** ** Strings *)

Section StringFacts.

Lemma index_empty_pattern (s : string) : String.index 0 "" s = Some 0%nat.
Proof. destruct s; reflexivity. Qed.

Lemma indexOf_empty (s : string) : JsString.indexOf s "" = 0.
Proof. unfold JsString.indexOf. now rewrite index_empty_pattern. Qed.

Lemma indexOf_absent (s pat : string) :
  JsString.indexOf s pat = -1 <-> ~ occurs_in pat s.
Proof.
  unfold JsString.indexOf, occurs_in.
  destruct (String.index 0 pat s) as [n|] eqn:Hidx.
  - split; [lia|]. intros Hno. exfalso. apply Hno. exists n.
    eapply String.index_correct1; eassumption.
  - split; [|reflexivity]. intros _ [m Hm].
    destruct pat as [|a pat'].
    + rewrite index_empty_pattern in Hidx. discriminate.
    + revert Hm. eapply String.index_correct3; [eassumption|discriminate|lia].
Qed.

Lemma split_nonempty (sep : ascii) (s : string) : JsString.split sep s <> [].
Proof.
  induction s as [|c s IH]; simpl; [discriminate|].
  destruct (Ascii.eqb c sep); [discriminate|].
  destruct (JsString.split sep s); [contradiction|discriminate].
Qed.

(** Joining the segments with the separator gives the string back. *)
Lemma split_concat (sep : ascii) (s : string) :
  String.concat (String sep EmptyString) (JsString.split sep s) = s.
Proof.
  induction s as [|c s IH]; simpl; [reflexivity|].
  destruct (Ascii.eqb c sep) eqn:Hc.
  - apply Ascii.eqb_eq in Hc. subst c.
    pose proof (split_nonempty sep s) as Hne.
    destruct (JsString.split sep s) as [|h t]; [contradiction|].
    simpl. simpl in IH. now rewrite IH.
  - pose proof (split_nonempty sep s) as Hne.
    destruct (JsString.split sep s) as [|h t]; [contradiction|].
    destruct t as [|h' t]; rewrite <- IH; reflexivity.
Qed.

(** No segment contains the separator. *)
Lemma split_segments (sep : ascii) (s : string) :
  Forall (fun seg => ~ List.In sep (list_ascii_of_string seg))
    (JsString.split sep s).
Proof.
  induction s as [|c s IH]; simpl.
  - constructor; [simpl; tauto|constructor].
  - destruct (Ascii.eqb c sep) eqn:Hc.
    + constructor; [simpl; tauto|assumption].
    + apply Ascii.eqb_neq in Hc.
      destruct (JsString.split sep s) as [|h t].
      * constructor; [simpl; intuition congruence|constructor].
      * inversion IH as [|? ? Hh Ht]; subst.
        constructor; [simpl; intuition congruence|assumption].
Qed.

(** The file name of a path carries no "/". *)
Lemma fileName_no_slash (p : string) :
  ~ List.In "/"%char (list_ascii_of_string (fileName p)).
Proof.
  unfold fileName, JsString.pop.
  pose proof (split_segments "/"%char p) as Hall.
  pose proof (split_nonempty "/"%char p) as Hne.
  induction (JsString.split "/"%char p) as [|h t IH]; [contradiction|].
  inversion Hall as [|? ? Hh Ht]; subst.
  destruct t as [|h' t]; [exact Hh|].
  apply IH; [assumption|discriminate].
Qed.

Lemma filter_sublist {A : Type} (f : A -> bool) (l : list A) :
  List.filter f l `sublist_of` l.
Proof.
  induction l as [|x l IH]; simpl.
  - constructor.
  - destruct (f x); now constructor.
Qed.

Lemma filter_elem_of {A : Type} (f : A -> bool) (l : list A) (x : A) :
  x ∈ List.filter f l <-> x ∈ l /\ f x = true.
Proof. rewrite !list_elem_of_In. apply List.filter_In. Qed.

Lemma keepCss_spec (mod_ css : string) :
  keepCss mod_ css = false <->
  JsString.startsWith (fileName css) "mod-" = true
  /\ ~ occurs_in mod_ (fileName css).
Proof.
  unfold keepCss. rewrite negb_false_iff, andb_true_iff, Z.eqb_eq.
  now rewrite indexOf_absent.
Qed.

Lemma keepJs_spec (js : string) :
  keepJs js = false <->
  JsString.startsWith (fileName js) "mod-" = true
  \/ JsString.startsWith (fileName js) "service-worker.js" = true.
Proof.
  unfold keepJs.
  destruct (JsString.startsWith (fileName js) "mod-"),
           (JsString.startsWith (fileName js) "service-worker.js");
    simpl; intuition congruence.
Qed.

End StringFacts.

Example fileName_of_path : fileName "/public/build/mod-home.css" = "mod-home.css".
Proof. reflexivity. Qed.

Example fileName_trailing_slash : fileName "a/b/" = "".
Proof. reflexivity. Qed.

Example split_run : JsString.split "/"%char "/a//b" = [""; "a"; ""; "b"].
Proof. reflexivity. Qed.

Example indexOf_run :
  JsString.indexOf "mod-home.css" "home" = 4
  /\ JsString.indexOf "mod-home.css" "blog" = -1
  /\ JsString.indexOf "common.css" "" = 0.
Proof. repeat split. Qed.

Example css_filter_run :
  currentRouteCss ["/b/common.css"; "/b/mod-home.css"; "/b/mod-blog.css"] "home"
  = ["/b/common.css"; "/b/mod-home.css"].
Proof. reflexivity. Qed.

Example js_filter_run :
  currentRouteJs ["/b/app.js"; "/b/mod-home.js"; "/service-worker.js"; "/b/x.js"]
  = ["/b/app.js"; "/b/x.js"].
Proof. reflexivity. Qed.

(** ** Page-asset filtering *)

(** C6, as the code has it: a stylesheet is dropped exactly when its file
    name starts with "mod-" and does not contain the resolved module
    identifier; a script is dropped exactly when its file name starts with
    "mod-" (whatever the module, the resolved one included) or with
    "service-worker.js"; both outputs keep the order of the input. *)
Theorem page_asset_filters (allCss allJs : list string) (mod_ : string) :
  (forall css, css ∈ currentRouteCss allCss mod_ <->
     css ∈ allCss
     /\ ~ (JsString.startsWith (fileName css) "mod-" = true
           /\ ~ occurs_in mod_ (fileName css)))
  /\ (forall js, js ∈ currentRouteJs allJs <->
        js ∈ allJs
        /\ ~ (JsString.startsWith (fileName js) "mod-" = true
              \/ JsString.startsWith (fileName js) "service-worker.js" = true))
  /\ currentRouteCss allCss mod_ `sublist_of` allCss
  /\ currentRouteJs allJs `sublist_of` allJs.
Proof.
  unfold currentRouteCss, currentRouteJs.
  split; [|split; [|split; apply filter_sublist]].
  - intros css. rewrite filter_elem_of, <- keepCss_spec.
    destruct (keepCss mod_ css); intuition congruence.
  - intros js. rewrite filter_elem_of, <- keepJs_spec.
    destruct (keepJs js); intuition congruence.
Qed.

(** C6 as stated fails on scripts: with "home" the resolved module, the
    script of that very module is not retained. *)
Lemma own_module_script_dropped :
  fileName "/build/mod-home.js" = "mod-home.js"
  /\ occurs_in "home" (fileName "/build/mod-home.js")
  /\ ("/build/mod-home.js" ∉ currentRouteJs ["/build/app.js"; "/build/mod-home.js"])
  /\ currentRouteJs ["/build/app.js"; "/build/mod-home.js"] = ["/build/app.js"].
Proof.
  split; [reflexivity|]. split; [exists 4%nat; reflexivity|].
  split; [|reflexivity].
  intros H. apply filter_elem_of in H. destruct H as [_ H]. discriminate H.
Qed.

(** C9: with the empty string as module identifier the stylesheet filter
    keeps every stylesheet, because [indexOf("")] is never [-1]. *)
Theorem css_filter_empty_module (allCss : list string) :
  (forall css, JsString.indexOf (fileName css) "" <> -1)
  /\ (forall css, keepCss "" css = true)
  /\ currentRouteCss allCss "" = allCss.
Proof.
  assert (Hidx : forall css, JsString.indexOf (fileName css) "" <> -1).
  { intros css. rewrite indexOf_empty. lia. }
  assert (Hkeep : forall css, keepCss "" css = true).
  { intros css. unfold keepCss. rewrite indexOf_empty. simpl.
    now rewrite andb_false_r. }
  repeat split; try assumption.
  unfold currentRouteCss.
  induction allCss as [|css l IH]; simpl; [reflexivity|].
  now rewrite Hkeep, IH.
Qed.

(** ** SEO aggregation *)

Section Seo.

Implicit Types (chain : list RouteDefinition) (r : RouteDefinition).
Implicit Types (field : string).

Lemma defaults_empty_pair (a b : gmap string string) :
  Lodash.defaults ∅ [a; b] = a ∪ b.
Proof. unfold Lodash.defaults. simpl. now rewrite (left_id_L ∅ (∪)). Qed.

(** One more, deeper, route: its own fields first, the rest inherited. *)
Lemma seoDetailsOf_snoc chain r :
  seoDetailsOf (chain ++ [r]) = Lodash.get (seo r) ∅ ∪ seoDetailsOf chain.
Proof.
  unfold seoDetailsOf, Lodash.each. rewrite foldl_app. simpl.
  apply defaults_empty_pair.
Qed.

Lemma seoDetailsOf_nil : seoDetailsOf [] = ∅.
Proof. reflexivity. Qed.

Lemma seoDetailsOf_None chain field :
  seoDetailsOf chain !! field = None <->
  forall r, r ∈ chain -> Lodash.get (seo r) ∅ !! field = None.
Proof.
  induction chain as [|r chain IH] using rev_ind.
  - rewrite seoDetailsOf_nil, lookup_empty. split; [|reflexivity].
    intros _ r Hr. inversion Hr.
  - rewrite seoDetailsOf_snoc, lookup_union_None, IH. split.
    + intros [Hr Hchain] r' Hin. apply elem_of_app in Hin.
      destruct Hin as [Hin|Hin]; [now apply Hchain|].
      apply list_elem_of_singleton in Hin. now subst.
    + intros H. split.
      * apply H. apply elem_of_app. right. now apply list_elem_of_singleton.
      * intros r' Hin. apply H. apply elem_of_app. now left.
Qed.

Lemma seoDetailsOf_Some chain field v :
  seoDetailsOf chain !! field = Some v ->
  exists (i : nat) r,
    chain !! i = Some r
    /\ Lodash.get (seo r) ∅ !! field = Some v
    /\ forall (j : nat) r', (i < j)%nat -> chain !! j = Some r' ->
         Lodash.get (seo r') ∅ !! field = None.
Proof.
  induction chain as [|r chain IH] using rev_ind.
  - rewrite seoDetailsOf_nil, lookup_empty. discriminate.
  - rewrite seoDetailsOf_snoc, lookup_union_Some_raw.
    intros [Hleaf|[Hleaf Hrest]].
    + exists (length chain), r. split; [|split; [assumption|]].
      * now rewrite lookup_app_r, Nat.sub_diag by lia.
      * intros j r' Hij Hj. apply lookup_lt_Some in Hj.
        rewrite length_app in Hj. simpl in Hj. lia.
    + destruct (IH Hrest) as (i & r0 & Hi & Hv & Hlater).
      exists i, r0. split; [|split; [assumption|]].
      * rewrite lookup_app_l; [assumption|]. now apply lookup_lt_Some in Hi.
      * intros j r' Hij Hj.
        destruct (decide (j < length chain)%nat) as [Hlt|Hge].
        -- rewrite lookup_app_l in Hj by assumption. now apply (Hlater j).
        -- rewrite lookup_app_r in Hj by lia.
           destruct (j - length chain)%nat eqn:Hd; simpl in Hj; [|discriminate].
           now inversion Hj; subst.
Qed.

End Seo.

Lemma route_seo_Some (r : RouteDefinition) (field v : string) :
  Lodash.get (seo r) ∅ !! field = Some v
  <-> exists metadata, seo r = Some metadata /\ metadata !! field = Some v.
Proof.
  destruct r as [p [m|]]; simpl.
  - split; [eauto|]. now intros (m' & [= <-] & H).
  - rewrite lookup_empty. split; [discriminate|]. now intros (m' & H & _).
Qed.

Lemma route_seo_None (r : RouteDefinition) (field : string) :
  Lodash.get (seo r) ∅ !! field = None
  <-> forall metadata, seo r = Some metadata -> metadata !! field = None.
Proof.
  destruct r as [p [m|]]; simpl.
  - split; [now intros H m' [= <-]|]. intros H. now apply H.
  - rewrite lookup_empty. split; [discriminate|reflexivity].
Qed.

(** C4: for every matched chain (root first) and every metadata field, the
    aggregate holds the value that the leaf-most route whose [seo] defines
    the field gives it: some route of the chain has a [seo] object with that
    value for the field, and no route after it has a [seo] object defining
    the field.  The aggregate has no value for a field exactly when no
    route's [seo] defines it, and the empty chain gives the empty object. *)
Theorem seo_aggregation_childmost
    (chain : list RouteDefinition) (field : string) :
  seoDetailsOf [] = ∅
  /\ match seoDetailsOf chain !! field with
     | Some v =>
         exists (i : nat) (r : RouteDefinition) (metadata : gmap string string),
           chain !! i = Some r
           /\ seo r = Some metadata
           /\ metadata !! field = Some v
           /\ forall (j : nat) (r' : RouteDefinition)
                     (metadata' : gmap string string),
                (i < j)%nat -> chain !! j = Some r' ->
                seo r' = Some metadata' -> metadata' !! field = None
     | None =>
         forall (r : RouteDefinition) (metadata : gmap string string),
           r ∈ chain -> seo r = Some metadata -> metadata !! field = None
     end.
Proof.
  split; [apply seoDetailsOf_nil|].
  destruct (seoDetailsOf chain !! field) as [v|] eqn:Hagg.
  - apply seoDetailsOf_Some in Hagg as (i & r & Hi & Hv & Hlater).
    apply route_seo_Some in Hv as (metadata & Hseo & Hv).
    exists i, r, metadata. repeat split; try assumption.
    intros j r' metadata' Hij Hj Hseo'.
    exact (proj1 (route_seo_None r' field) (Hlater j r' Hij Hj) metadata' Hseo').
  - intros r metadata Hin Hseo.
    exact (proj1 (route_seo_None r field)
             (proj1 (seoDetailsOf_None chain field) Hagg r Hin) metadata Hseo).
Qed.

(** The spec's two chains, and every field of the aggregate read back. *)
Example seo_aggregation_on_spec_chains :
  seoDetailsOf [Scenario.root; Scenario.leafBoth] !! "title" = Some "B"
  /\ seoDetailsOf [Scenario.root; Scenario.leafBoth] !! "desc" = Some "D"
  /\ seoDetailsOf [Scenario.root; Scenario.leafDesc] !! "title" = Some "A"
  /\ seoDetailsOf [Scenario.root; Scenario.leafDesc] !! "desc" = Some "D"
  /\ seoDetailsOf [Scenario.root; Scenario.leafDesc] !! "keywords" = None.
Proof. repeat split; vm_compute; reflexivity. Qed.

Example seo_leaf_wins :
  seoDetailsOf [Scenario.root; Scenario.leafBoth]
  = <["title" := "B"]> {["desc" := "D"]}.
Proof. vm_compute. reflexivity. Qed.

Example seo_root_fills :
  seoDetailsOf [Scenario.root; Scenario.leafDesc]
  = <["title" := "A"]> {["desc" := "D"]}.
Proof. vm_compute. reflexivity. Qed.

Example seo_route_without_metadata :
  seoDetailsOf [Scenario.root; Scenario.bare] = {["title" := "A"]}.
Proof. vm_compute. reflexivity. Qed.

(** ** The catch-all handler *)

Section HandlerFacts.

Context {Assets RouteTable Storage Api History Store View : Type}.
Variable E : Collaborators Assets RouteTable Storage Api History Store View.
Implicit Types (req : Request Assets) (store : Store) (err : JsThrown).

Lemma sendHtml_calls st css js seoProp v calls :
  sendHtml E st css js seoProp v = Return calls ->
  exists html,
    renderToStaticMarkup E
      {| stylesheets := css; scripts := js; html_seo := seoProp;
         children := v |} = Return html
    /\ calls = [ResStatus st; ResSend ("<!DOCTYPE html>" +:+ html)].
Proof.
  unfold sendHtml. destruct (renderToStaticMarkup E _) as [html|e]; simpl.
  - intros [= <-]. now exists html.
  - discriminate.
Qed.

Lemma sendHtml_Return st css js seoProp v html :
  renderToStaticMarkup E
    {| stylesheets := css; scripts := js; html_seo := seoProp;
       children := v |} = Return html ->
  sendHtml E st css js seoProp v
  = Return [ResStatus st; ResSend ("<!DOCTYPE html>" +:+ html)].
Proof. unfold sendHtml. now intros ->. Qed.

(** The error path writes the error document under the status it was
    entered with, or throws. *)
Lemma catchCallback_errorDocument req store st err :
  catchCallback E req store st err
  = doc ← errorDocument E req store err;
    mret [ResStatus st; ResSend doc].
Proof.
  unfold catchCallback, errorDocument, sendHtml.
  destruct (getErrorComponent E err store) as [v|e]; simpl; [|reflexivity].
  now destruct (renderToStaticMarkup E _).
Qed.

Lemma respond_one_response req o calls :
  respond E req o = Return calls -> responses_emitted calls = 1%nat.
Proof.
  destruct o as [v st|v st|u st|v st]; simpl;
    try (intros H; apply sendHtml_calls in H as (html & _ & ->); reflexivity).
  now intros [= <-].
Qed.

(** The preload stage failed: the handler is the error path entered with
    the initial [statusCode = 200]. *)
Lemma handler_preloadFailed req store err :
  preloadFailed E req store err ->
  handler E req
  = match catchCallback E req store 200 err with
    | Return calls => Answered calls
    | Throw e =>
        match preload E req with
        | Throw _ => Propagated e
        | Return _ => UnhandledRejection e
        end
    end.
Proof.
  unfold handler.
  intros [[Hpre ->]|(run & Hpre & Hall & ->)]; rewrite Hpre.
  - now destruct (catchCallback E req _ 200 err).
  - rewrite Hall. unfold settle. now destruct (catchCallback E req _ 200 err).
Qed.

(** Every exit of the handler is the one [renderOutcome] names. *)
Lemma errorOutcome_catchCallback req store st err :
  match errorOutcome E req store st err with
  | Some o =>
      exists calls, respond E req o = Return calls
                    /\ catchCallback E req store st err = Return calls
  | None => exists e, catchCallback E req store st err = Throw e
  end.
Proof.
  unfold errorOutcome, catchCallback.
  destruct (getErrorComponent E err store) as [v|e]; simpl; [|eauto].
  change (respond E req (Error v st))
    with (sendHtml E st (pageCss E req) (pageJs E req) None v).
  destruct (sendHtml E st _ _ None v) as [calls|e] eqn:Hsend; [|eauto].
  exists calls. split; [exact Hsend|reflexivity].
Qed.

(** Closes a goal of [handler_respond] whose request went into the error
    path with the given store, status and error. *)
Ltac through_error_path req store st err :=
  let H := fresh "Herr" in
  pose proof (errorOutcome_catchCallback req store st err) as H;
  destruct (errorOutcome E req store st err) as [?o|];
  [ destruct H as (?calls & ?Hr & ->); eauto
  | let e := fresh "e" in let Hc := fresh "Hc" in
    destruct H as (e & Hc); rewrite Hc;
    exists store, st, err, e; eauto ].

Lemma handler_respond req :
  match renderOutcome E req with
  | Some o =>
      exists calls, respond E req o = Return calls
                    /\ handler E req = Answered calls
  | None =>
      exists store st err e,
        catchCallback E req store st err = Throw e
        /\ (handler E req = UnhandledRejection e
            \/ handler E req = Propagated e)
  end.
Proof.
  unfold renderOutcome, handler.
  destruct (preload E req) as [run|err];
    [|through_error_path req (initialStore E) 200 err].
  destruct (Promise_all (promises run)) as [|err];
    [|through_error_path req (store_settled run) 200 err].
  unfold thenCallback.
  destruct (renderStage E req (store_settled run)) as [[v context]|err];
    [|through_error_path req (store_settled run) 200 err].
  destruct (truthy (url context)); [simpl; eauto|].
  set (st := js_or (status context) 200).
  assert (Hsame :
    respond E req (if (length (currentRoutes E req) =? 0)%nat
                   then NotFound v st else Page v st)
    = sendHtml E st (pageCss E req) (pageJs E req)
        (Some (seoDetailsOf (currentRoutes E req))) v).
  { now destruct (length (currentRoutes E req) =? 0)%nat. }
  rewrite Hsame.
  destruct (sendHtml E st _ _ _ v) as [calls|err] eqn:Hsend.
  - exists calls. now rewrite Hsame.
  - through_error_path req (store_settled run) st err.
Qed.

End HandlerFacts.

(** ** Error status *)

Section ErrorStatus.

Context {Assets RouteTable Storage Api History Store View : Type}.
Variable E : Collaborators Assets RouteTable Storage Api History Store View.

(** [getErrorComponent] does put a status on the error it hands to the
    error view: the error's own, 500 by default. *)
Lemma getErrorComponent_statusCode (err : JsThrown) (store : Store) :
  exists message statusCode,
    getErrorComponent E err store
    = renderErrorPage E (ErrorObject message (Some statusCode)) store
    /\ statusCode = match err with
                    | ErrorObject _ declared => js_or declared 500
                    | NotAnError _ => 500
                    end.
Proof.
  destruct err as [message declared|value]; unfold getErrorComponent; simpl.
  - now exists message, (js_or declared 500).
  - now exists value, 500.
Qed.

(** The response, however, goes out under the closure variable
    [statusCode], still 200 when the preload stage fails. *)
Lemma preloadFailed_status_200 (req : Request Assets) (store : Store)
    (err : JsThrown) (calls : list ResCall) :
  preloadFailed E req store err ->
  handler E req = Answered calls ->
  status_set calls = 200.
Proof.
  intros Hfail. rewrite (handler_preloadFailed E req store err Hfail).
  rewrite catchCallback_errorDocument.
  destruct (errorDocument E req store err) as [doc|e]; simpl.
  - now intros [= <-].
  - destruct (preload E req); discriminate.
Qed.

(** Likewise when the page or not-found render throws. *)
Lemma renderThrows_status_200 (req : Request Assets) (run : PreloadRun Store)
    (err : JsThrown) (calls : list ResCall) :
  preload E req = Return run ->
  Promise_all (promises run) = Fulfilled ->
  renderStage E req (store_settled run) = Throw err ->
  handler E req = Answered calls ->
  status_set calls = 200.
Proof.
  intros Hpre Hall Hrender. unfold handler, thenCallback.
  rewrite Hpre, Hall, Hrender, catchCallback_errorDocument.
  destruct (errorDocument E req (store_settled run) err) as [doc|e]; simpl.
  - now intros [= <-].
  - discriminate.
Qed.

End ErrorStatus.

(** C1, the code at failing inputs: a preload promise rejecting with an
    error that declares no status, one rejecting with an error that declares
    403, and a render that throws, are each answered under status 200; the
    500 and the 403 only reach the text of the error view. *)
Theorem failure_answered_with_status_200 :
  handler Scenario.preloadRejects (Scenario.request "/home")
  = Answered
      [ResStatus 200;
       ResSend "<!DOCTYPE html><html><head><link /build/common.css><link /build/mod-home.css><script /build/app.js></head><body>error 500: boom</body></html>"]
  /\ handler Scenario.preloadRejects403 (Scenario.request "/home")
     = Answered
         [ResStatus 200;
          ResSend "<!DOCTYPE html><html><head><link /build/common.css><link /build/mod-home.css><script /build/app.js></head><body>error 403: forbidden</body></html>"]
  /\ handler Scenario.renderThrows (Scenario.request "/home")
     = Answered
         [ResStatus 200;
          ResSend "<!DOCTYPE html><html><head><link /build/common.css><link /build/mod-home.css><script /build/app.js></head><body>error 500: boom</body></html>"].
Proof. repeat split; vm_compute; reflexivity. Qed.

(** ** Failed preload: the error document *)

(** C5: when the preload stage fails, the page and not-found renderers have
    no part in the result, and the one document sent is the error view
    wrapped in [<Html>] with the page's filtered stylesheets and scripts and
    without a [seo] prop (nothing at all is written when the error view or
    its serialization throws). *)
Theorem failed_preload_sends_error_document
    {Assets RouteTable Storage Api History Store View : Type}
    (E : Collaborators Assets RouteTable Storage Api History Store View)
    (req : Request Assets) (store : Store) (err : JsThrown) :
  preloadFailed E req store err ->
  (forall notFound page,
     handler (withRenderers E notFound page) req = handler E req)
  /\ match getErrorComponent E err store with
     | Return errorView =>
         match renderToStaticMarkup E
                 {| stylesheets := pageCss E req; scripts := pageJs E req;
                    html_seo := None; children := errorView |} with
         | Return html =>
             bodies_sent (calls_of (handler E req))
             = ["<!DOCTYPE html>" +:+ html]
             /\ redirects_issued (calls_of (handler E req)) = []
         | Throw _ => calls_of (handler E req) = []
         end
     | Throw _ => calls_of (handler E req) = []
     end.
Proof.
  intros Hfail. split.
  - intros notFound page.
    rewrite (handler_preloadFailed E req store err Hfail).
    now rewrite (handler_preloadFailed (withRenderers E notFound page)
                   req store err Hfail).
  - rewrite (handler_preloadFailed E req store err Hfail).
    unfold catchCallback, sendHtml.
    destruct (getErrorComponent E err store) as [errorView|e]; simpl.
    + destruct (renderToStaticMarkup E _) as [html|e]; simpl.
      * now split.
      * now destruct (preload E req).
    + now destruct (preload E req).
Qed.

Lemma failed_preload_sends_error_document_witness :
  preloadFailed Scenario.preloadRejects (Scenario.request "/home") tt Scenario.boom
  /\ bodies_sent (calls_of (handler Scenario.preloadRejects (Scenario.request "/home")))
     = ["<!DOCTYPE html><html><head><link /build/common.css><link /build/mod-home.css><script /build/app.js></head><body>error 500: boom</body></html>"].
Proof.
  assert (Hfail : preloadFailed Scenario.preloadRejects
                    (Scenario.request "/home") tt Scenario.boom).
  { right. eexists. repeat split; reflexivity. }
  split; [exact Hfail|].
  exact (proj1 (proj2 (failed_preload_sends_error_document
                         Scenario.preloadRejects (Scenario.request "/home")
                         tt Scenario.boom Hfail))).
Defined.

(** ** No matching route *)




(** ** Redirects *)

(** What the handler does when the render leaves a non-empty redirect
    target: it stores the context's status (200 if none) with [res.status]
    and calls [res.redirect] with the target alone, which answers under 302
    whatever was stored; it composes and sends no document. *)
Lemma redirect_calls
    {Assets RouteTable Storage Api History Store View : Type}
    (E : Collaborators Assets RouteTable Storage Api History Store View)
    (req : Request Assets) (run : PreloadRun Store)
    (view : View) (context' : RequestContext Storage Api) (target : string) :
  preload E req = Return run ->
  Promise_all (promises run) = Fulfilled ->
  renderStage E req (store_settled run) = Return (view, context') ->
  url context' = Some target ->
  target <> "" ->
  handler E req
  = Answered [ResStatus (js_or (status context') 200); ResRedirect target]
  /\ serve E req = handler E req
  /\ wire (calls_of (handler E req)) = Some (302, Some target)
  /\ bodies_sent (calls_of (handler E req)) = [].
Proof.
  intros Hpre Hall Hrender Hurl Hne.
  assert (Htruthy : truthy (url context') = true).
  { rewrite Hurl. destruct target; [contradiction|reflexivity]. }
  assert (Hthen : thenCallback E req (store_settled run) 200
                  = (js_or (status context') 200,
                     Return [ResStatus (js_or (status context') 200);
                             ResRedirect target])).
  { unfold thenCallback. now rewrite Hrender, Htruthy, Hurl. }
  assert (Hhandler : handler E req
            = Answered [ResStatus (js_or (status context') 200);
                        ResRedirect target]).
  { unfold handler. now rewrite Hpre, Hall, Hthen. }
  split; [exact Hhandler|]. split.
  - rewrite Hhandler. unfold serve, thenCallbackOnNode.
    now rewrite Hpre, Hall, Hthen.
  - rewrite Hhandler. split; reflexivity.
Qed.

(** C3, the code at a failing input: the render sets the redirect target
    "/login" and the status 301 on the context.  The handler stores 301
    with [res.status] and then calls the one-argument [res.redirect], so the
    redirect goes out under 302: the context's status is not the one of the
    response.  (With no status on the context the handler stores 200, and
    the redirect goes out under 302 as well.)  No document is sent. *)
Theorem redirect_drops_context_status :
  renderStage Scenario.redirects301 (Scenario.request "/home") tt
  = Return ("page",
            {| storage := tt; api := tt; pathname := "/home";
               status := Some 301; url := Some "/login" |})
  /\ serve Scenario.redirects301 (Scenario.request "/home")
     = Answered [ResStatus 301; ResRedirect "/login"]
  /\ wire (calls_of (serve Scenario.redirects301 (Scenario.request "/home")))
     = Some (302, Some "/login")
  /\ serve Scenario.redirects (Scenario.request "/home")
     = Answered [ResStatus 200; ResRedirect "/login"]
  /\ wire (calls_of (serve Scenario.redirects (Scenario.request "/home")))
     = Some (302, Some "/login")
  /\ bodies_sent
       (calls_of (serve Scenario.redirects301 (Scenario.request "/home")))
     = [].
Proof. repeat split. Qed.

(** ** One outcome, one response *)

Section ServeFacts.

Context {Assets RouteTable Storage Api History Store View : Type}.
Variable E : Collaborators Assets RouteTable Storage Api History Store View.
Implicit Types (req : Request Assets) (store : Store) (err : JsThrown).

Lemma onNode_send st body :
  onNode (Return [ResStatus st; ResSend body])
  = if statusAccepted st then Return [ResStatus st; ResSend body]
    else Throw (invalidStatusCode st).
Proof.
  unfold onNode, refusedSend. simpl.
  change (status_set [ResStatus st; ResSend body]) with st.
  now destruct (statusAccepted st).
Qed.

Lemma catchCallbackOnNode_Return req store st err calls :
  catchCallbackOnNode E req store st err = Return calls ->
  exists errorView html,
    getErrorComponent E err store = Return errorView
    /\ renderToStaticMarkup E
         {| stylesheets := pageCss E req; scripts := pageJs E req;
            html_seo := None; children := errorView |} = Return html
    /\ statusAccepted st = true
    /\ calls = [ResStatus st; ResSend ("<!DOCTYPE html>" +:+ html)].
Proof.
  unfold catchCallbackOnNode, catchCallback, sendHtml.
  destruct (getErrorComponent E err store) as [errorView|e]; [|discriminate].
  simpl. destruct (renderToStaticMarkup E _) as [html|e] eqn:Hm; [|discriminate].
  cbn [mbind Completion_bind mret Completion_ret].
  rewrite onNode_send.
  destruct (statusAccepted st) eqn:Hst; [|discriminate].
  intros [= <-]. now exists errorView, html.
Qed.

(** A [catch] that completes produces the [Error] outcome. *)
Lemma catch_produces req store st err calls :
  EntersCatch E req store st err ->
  catchCallbackOnNode E req store st err = Return calls ->
  exists o, Produces E req o /\ respond E req o = Return calls.
Proof.
  intros Henter Hcatch.
  apply catchCallbackOnNode_Return in Hcatch
    as (errorView & html & Hview & Hmarkup & Hst & ->).
  exists (Error errorView st). split.
  - eapply produces_error; eassumption.
  - simpl. now apply sendHtml_Return.
Qed.

Lemma EntersCatch_functional req store st err store' st' err' :
  EntersCatch E req store st err -> EntersCatch E req store' st' err' ->
  store = store' /\ st = st' /\ err = err'.
Proof.
  destruct 1; destruct 1; simplify_eq; repeat split; congruence.
Qed.

(** At most one outcome. *)
Lemma Produces_functional req o o' :
  Produces E req o -> Produces E req o' -> o = o'.
Proof.
  intros H H'.
  destruct H as [run v c Hp Ha Hr Hu
                |run v c html Hc Hp Ha Hr Hu Hm Hs
                |run v c html Hc Hp Ha Hr Hu Hm Hs
                |store st err ev html He Hv Hm Hs];
  destruct H' as [run' v' c' Hp' Ha' Hr' Hu'
                 |run' v' c' html' Hc' Hp' Ha' Hr' Hu' Hm' Hs'
                 |run' v' c' html' Hc' Hp' Ha' Hr' Hu' Hm' Hs'
                 |store' st' err' ev' html' He' Hv' Hm' Hs'];
  try (rewrite Hp in Hp'; injection Hp' as <-;
       rewrite Hr in Hr'; injection Hr' as <- <-);
  try congruence;
  try (match goal with
       | H : EntersCatch _ _ _ _ _ |- _ =>
           destruct H; simplify_eq; congruence
       end).
  destruct (EntersCatch_functional _ _ _ _ _ _ _ He He') as (<- & <- & <-).
  congruence.
Qed.

(** Every run of the handler on Node either carries out the one outcome
    produced, or ends in a [catch] callback that throws. *)
Lemma serve_cases req :
  (exists o calls,
     Produces E req o /\ respond E req o = Return calls
     /\ serve E req = Answered calls)
  \/ (exists store st err e,
        EntersCatch E req store st err
        /\ catchCallbackOnNode E req store st err = Throw e
        /\ (serve E req = UnhandledRejection e \/ serve E req = Propagated e)).
Proof.
  assert (Hcatch : forall store st err,
    EntersCatch E req store st err ->
    (exists o calls, Produces E req o /\ respond E req o = Return calls
                     /\ catchCallbackOnNode E req store st err = Return calls)
    \/ (exists e, catchCallbackOnNode E req store st err = Throw e)).
  { intros store st err Henter.
    destruct (catchCallbackOnNode E req store st err) as [calls|e] eqn:Hc;
      [left|right; eauto].
    destruct (catch_produces req store st err calls Henter Hc) as (o & Ho & Hr).
    eauto. }
  unfold serve.
  destruct (preload E req) as [run|err] eqn:Hpre.
  2:{ destruct (Hcatch _ 200 err (catch_preload_throws E req err Hpre))
        as [(o & calls & Ho & Hr & ->)|(e & Hc)]; [left; eauto|].
      right. rewrite Hc. exists (initialStore E), 200, err, e.
      split; [now constructor|]. eauto. }
  destruct (Promise_all (promises run)) as [|err] eqn:Hall.
  2:{ destruct (Hcatch _ 200 err (catch_rejection E req run err Hpre Hall))
        as [(o & calls & Ho & Hr & ->)|(e & Hc)]; [left; eauto|].
      right. rewrite Hc. exists (store_settled run), 200, err, e.
      split; [now constructor|]. eauto. }
  unfold thenCallbackOnNode, thenCallback.
  destruct (renderStage E req (store_settled run)) as [[view context]|err]
    eqn:Hstage.
  2:{ cbn [fst snd onNode mbind Completion_bind].
      destruct (Hcatch _ 200 err
                  (catch_render_throws E req run err Hpre Hall Hstage))
        as [(o & calls & Ho & Hr & ->)|(e & Hc)]; [left; eauto|].
      right. rewrite Hc. exists (store_settled run), 200, err, e.
      split; [now constructor|]. eauto. }
  set (st := js_or (status context) 200).
  destruct (truthy (url context)) eqn:Hurl.
  { left. exists (Redirect (Lodash.get (url context) "") st). eexists.
    split; [eapply produces_redirect; eassumption|].
    split; reflexivity. }
  cbn [fst snd]. unfold sendHtml.
  change {| stylesheets := pageCss E req; scripts := pageJs E req;
            html_seo := Some (seoDetailsOf (currentRoutes E req));
            children := view |} with (pageProps E req view).
  destruct (renderToStaticMarkup E (pageProps E req view)) as [html|err]
    eqn:Hmarkup.
  2:{ cbn [onNode mbind Completion_bind].
      destruct (Hcatch _ st err
                  (catch_markup_throws E req run view context err
                     Hpre Hall Hstage Hurl Hmarkup))
        as [(o & calls & Ho & Hr & ->)|(e & Hc)]; [left; eauto|].
      right. rewrite Hc. exists (store_settled run), st, err, e.
      split; [eapply catch_markup_throws; eassumption|]. eauto. }
  cbn [mbind Completion_bind mret Completion_ret].
  rewrite onNode_send.
  destruct (statusAccepted st) eqn:Hst.
  - left.
    assert (Hsend : sendHtml E st (pageCss E req) (pageJs E req)
                      (Some (seoDetailsOf (currentRoutes E req))) view
                    = Return [ResStatus st;
                              ResSend ("<!DOCTYPE html>" +:+ html)]).
    { now apply sendHtml_Return. }
    assert (Hchain : currentRoutes E req = [] \/ currentRoutes E req <> []).
    { destruct (currentRoutes E req); [now left|now right]. }
    destruct Hchain as [Hchain|Hchain].
    + exists (NotFound view st). eexists.
      split; [eapply produces_not_found; eassumption|].
      split; [exact Hsend|reflexivity].
    + exists (Page view st). eexists.
      split; [eapply produces_page; eassumption|].
      split; [exact Hsend|reflexivity].
  - pose proof (catch_send_throws E req run view context html
                  Hpre Hall Hstage Hurl Hmarkup Hst) as Henter.
    fold st in Henter.
    destruct (Hcatch _ st _ Henter)
      as [(o & calls & Ho & Hr & ->)|(e & Hc)]; [left; eauto|].
    right. rewrite Hc. exists (store_settled run), st, (invalidStatusCode st), e.
    split; [exact Henter|]. eauto.
Qed.

(** With every status in play accepted, running on Node changes nothing. *)
Lemma serve_handler req :
  (forall run view context,
     preload E req = Return run ->
     renderStage E req (store_settled run) = Return (view, context) ->
     statusAccepted (js_or (status context) 200) = true) ->
  serve E req = handler E req.
Proof.
  intros Hok.
  assert (Hcatch : forall store st err,
            statusAccepted st = true ->
            catchCallbackOnNode E req store st err
            = catchCallback E req store st err).
  { intros store st err Hst. unfold catchCallbackOnNode.
    rewrite catchCallback_errorDocument.
    destruct (errorDocument E req store err) as [doc|e]; [|reflexivity].
    cbn [mbind Completion_bind mret Completion_ret].
    now rewrite onNode_send, Hst. }
  unfold serve, handler.
  destruct (preload E req) as [run|err] eqn:Hpre;
    [|now rewrite Hcatch by reflexivity].
  destruct (Promise_all (promises run)); [|now rewrite Hcatch by reflexivity].
  unfold thenCallbackOnNode, thenCallback.
  destruct (renderStage E req (store_settled run)) as [[view context]|err]
    eqn:Hstage; [|cbn; now rewrite Hcatch by reflexivity].
  specialize (Hok run view context eq_refl Hstage).
  destruct (truthy (url context)); [reflexivity|].
  cbn [fst snd]. unfold sendHtml.
  destruct (renderToStaticMarkup E _) as [html|err];
    [|cbn; now rewrite Hcatch by assumption].
  cbn [mbind Completion_bind mret Completion_ret].
  rewrite onNode_send, Hok. reflexivity.
Qed.

End ServeFacts.

(** C7, as the code has it: a request produces at most one of the four
    outcomes, and the handler either emits exactly one response, that of the
    one outcome produced, or emits none.  It emits none exactly when a
    [catch] callback is entered and fails in its turn: the error view throws,
    the serialization of the error document throws, or [res.send] throws
    because the status in force is one Node refuses (a status the render
    left on the context).  The handler never emits two responses. *)
Theorem one_outcome_one_response
    {Assets RouteTable Storage Api History Store View : Type}
    (E : Collaborators Assets RouteTable Storage Api History Store View)
    (req : Request Assets) :
  (forall o o', Produces E req o -> Produces E req o' -> o = o')
  /\ ((exists o calls,
         Produces E req o
         /\ respond E req o = Return calls
         /\ serve E req = Answered calls
         /\ responses_emitted calls = 1%nat)
      \/ ((forall o, ~ Produces E req o)
          /\ responses_emitted (calls_of (serve E req)) = 0%nat
          /\ exists store st err e,
               EntersCatch E req store st err
               /\ catchCallbackOnNode E req store st err = Throw e
               /\ (serve E req = UnhandledRejection e
                   \/ serve E req = Propagated e))).
Proof.
  split; [apply Produces_functional|].
  destruct (serve_cases E req)
    as [(o & calls & Ho & Hr & Hs)|(store & st & err & e & He & Hc & Hs)].
  - left. exists o, calls. repeat split; try assumption.
    eapply respond_one_response; eassumption.
  - right. split; [|split].
    + intros o Ho.
      destruct (serve_cases E req)
        as [(o' & calls & _ & _ & Hs')|(s' & st' & err' & e' & He' & Hc' & _)].
      * destruct Hs as [Hs|Hs]; congruence.
      * destruct (EntersCatch_functional E req _ _ _ _ _ _ He He')
          as (<- & <- & <-).
        clear Hc' He'.
        destruct Ho as [run v c Hp Ha Hr Hu
                       |run v c html Hcn Hp Ha Hr Hu Hm Hst
                       |run v c html Hcn Hp Ha Hr Hu Hm Hst
                       |store' st' err' ev html He' Hv Hm Hst].
        -- destruct He; simplify_eq; congruence.
        -- destruct He; simplify_eq; congruence.
        -- destruct He; simplify_eq; congruence.
        -- destruct (EntersCatch_functional E req _ _ _ _ _ _ He He')
             as (<- & <- & <-).
           unfold catchCallbackOnNode, catchCallback in Hc.
           rewrite Hv in Hc. simpl in Hc.
           rewrite (sendHtml_Return E _ _ _ _ _ html Hm) in Hc.
           rewrite onNode_send, Hst in Hc. discriminate.
    + destruct Hs as [-> | ->]; reflexivity.
    + exists store, st, err, e. repeat split; assumption.
Qed.

(** C7 as stated fails: a preload promise rejects, the error view throws in
    its turn, and the handler emits no response; likewise when the render
    leaves the status 42 on the context, which Node refuses for the page and
    for the error document alike. *)
Lemma error_view_failure_emits_nothing :
  serve Scenario.errorViewThrows (Scenario.request "/home")
  = UnhandledRejection (ErrorObject "error view failed" None)
  /\ responses_emitted
       (calls_of (serve Scenario.errorViewThrows (Scenario.request "/home")))
     = 0%nat
  /\ serve refusedStatus (Scenario.request "/home")
     = UnhandledRejection (ErrorObject "Invalid status code: 42" None)
  /\ responses_emitted
       (calls_of (serve refusedStatus (Scenario.request "/home")))
     = 0%nat.
Proof. repeat split; vm_compute; reflexivity. Qed.

Example outcome_page :
  renderOutcome Scenario.plainPage (Scenario.request "/home")
  = Some (Page "page" 200).
Proof. vm_compute. reflexivity. Qed.

Example outcome_not_found :
  renderOutcome Scenario.noMatch404 (Scenario.request "/nope")
  = Some (NotFound "not found" 404).
Proof. vm_compute. reflexivity. Qed.

Example outcome_redirect :
  renderOutcome Scenario.redirects301 (Scenario.request "/home")
  = Some (Redirect "/login" 301).
Proof. vm_compute. reflexivity. Qed.

Example outcome_error :
  renderOutcome Scenario.preloadRejects (Scenario.request "/home")
  = Some (Error "error 500: boom" 200).
Proof. vm_compute. reflexivity. Qed.

(** ** The manifest handler and the shared [config] *)

Section ManifestFacts.

Variable require : string -> string.
Variable JSON_stringify : gmap nat (gmap string JsVal) -> JsVal -> string.
Variable config : nat.

Implicit Types (heap : gmap nat (gmap string JsVal)).
Implicit Types (cfg pwaObj : gmap string JsVal) (p : nat).

Lemma getProp_config_pwa heap cfg p :
  heap !! config = Some cfg -> cfg !! "pwa" = Some (VRef p) ->
  getProp heap (VRef config) "pwa" = VRef p.
Proof. unfold getProp. now intros -> ->. Qed.

Lemma lodash_set_ref heap p pwaObj key value :
  heap !! p = Some pwaObj ->
  lodash_set heap (VRef p) key value = <[p := <[key := value]> pwaObj]> heap.
Proof. unfold lodash_set. now intros ->. Qed.

(** After the write, [config.pwa] is still the same object. *)
Lemma config_pwa_after_set heap cfg p pwaObj value :
  heap !! config = Some cfg -> cfg !! "pwa" = Some (VRef p) ->
  heap !! p = Some pwaObj ->
  getProp (<[p := <["icons" := value]> pwaObj]> heap) (VRef config) "pwa"
  = VRef p.
Proof.
  intros Hcfg Hpwa Hp. unfold getProp.
  destruct (decide (p = config)) as [->|Hne].
  - rewrite lookup_insert_eq.
    assert (pwaObj = cfg) as -> by congruence.
    rewrite lookup_insert_ne by discriminate. now rewrite Hpwa.
  - rewrite lookup_insert_ne by assumption. now rewrite Hcfg, Hpwa.
Qed.

End ManifestFacts.

(** C10: with [config.pwa] an object of the shared heap, a request to
    [/manifest.json] writes [icons] into that very object (the heap after the
    request is the heap before it with that one property of that one object
    set, and the write shows through [config.pwa.icons]); the value written
    is the fixed list [icons], whatever the request and the heap; every other
    object and every other property keep their value; the body sent is
    [JSON.stringify] of the object as updated; and a later request rewrites
    the same value. *)
Theorem manifest_writes_shared_config
    {Req : Type} (require : string -> string)
    (JSON_stringify : gmap nat (gmap string JsVal) -> JsVal -> string)
    (config : nat) (req : Req)
    (heap : gmap nat (gmap string JsVal))
    (cfg pwaObj : gmap string JsVal) (p : nat) :
  heap !! config = Some cfg ->
  cfg !! "pwa" = Some (VRef p) ->
  heap !! p = Some pwaObj ->
  (manifestHandler require JSON_stringify config req heap).1
  = <[p := <["icons" := icons require]> pwaObj]> heap
  /\ getProp (manifestHandler require JSON_stringify config req heap).1
       (getProp (manifestHandler require JSON_stringify config req heap).1
          (VRef config) "pwa")
       "icons"
     = icons require
  /\ (forall l : nat, l <> p ->
        (manifestHandler require JSON_stringify config req heap).1 !! l
        = heap !! l)
  /\ (forall key : string, key <> "icons" ->
        getProp (manifestHandler require JSON_stringify config req heap).1
          (VRef p) key
        = getProp heap (VRef p) key)
  /\ bodies_sent (manifestHandler require JSON_stringify config req heap).2
     = [JSON_stringify
          (manifestHandler require JSON_stringify config req heap).1 (VRef p)]
  /\ (forall req' : Req,
        (manifestHandler require JSON_stringify config req'
           (manifestHandler require JSON_stringify config req heap).1).1
        = (manifestHandler require JSON_stringify config req heap).1)
  /\ (pwaObj !! "icons" <> Some (icons require) ->
      (manifestHandler require JSON_stringify config req heap).1 <> heap).
Proof.
  intros Hcfg Hpwa Hp.
  assert (Hheap : (manifestHandler require JSON_stringify config req heap).1
                  = <[p := <["icons" := icons require]> pwaObj]> heap).
  { unfold manifestHandler. cbn [fst].
    rewrite (getProp_config_pwa config heap cfg p Hcfg Hpwa).
    now apply lodash_set_ref. }
  assert (Hstill := config_pwa_after_set config heap cfg p pwaObj
                      (icons require) Hcfg Hpwa Hp).
  split; [exact Hheap|].
  split.
  { rewrite Hheap, Hstill. unfold getProp.
    now rewrite !lookup_insert_eq. }
  split.
  { intros l Hl. rewrite Hheap. now rewrite lookup_insert_ne. }
  split.
  { intros key Hkey. rewrite Hheap. unfold getProp.
    rewrite lookup_insert_eq, Hp. now rewrite lookup_insert_ne. }
  split.
  { rewrite Hheap. unfold manifestHandler. cbn [snd].
    rewrite (getProp_config_pwa config heap cfg p Hcfg Hpwa).
    now rewrite (lodash_set_ref heap p pwaObj _ _ Hp). }
  split.
  { intros req'. rewrite Hheap. unfold manifestHandler. cbn [fst].
    rewrite Hstill.
    rewrite (lodash_set_ref _ p (<["icons" := icons require]> pwaObj))
      by apply lookup_insert_eq.
    now rewrite !insert_insert_eq. }
  intros Hold Heq. rewrite Hheap in Heq.
  apply (f_equal (fun h => h !! p)) in Heq.
  rewrite lookup_insert_eq, Hp in Heq.
  apply Hold. injection Heq as Heq.
  rewrite <- Heq at 1. apply lookup_insert_eq.
Qed.

Lemma manifest_writes_shared_config_witness :
  Scenario.heap0 !! 0%nat
  = Some (<["pwa" := VRef 1]> {["port" := VNum 3003]})
  /\ getProp
       (manifestHandler (fun file => "/" +:+ file) Scenario.stringify 0 tt
          Scenario.heap0).1
       (VRef 1) "icons"
     = icons (fun file => "/" +:+ file)
  /\ getProp Scenario.heap0 (VRef 1) "icons" = VUndefined.
Proof.
  split; [reflexivity|]. split; [|reflexivity].
  pose proof (manifest_writes_shared_config (fun file => "/" +:+ file)
                Scenario.stringify 0 tt Scenario.heap0
                (<["pwa" := VRef 1]> {["port" := VNum 3003]})
                (<["name" := VStr "React PWA"]> {["display" := VStr "standalone"]})
                1 eq_refl eq_refl eq_refl) as (_ & Hicons & _).
  rewrite (getProp_config_pwa 0
             (manifestHandler (fun file => "/" +:+ file) Scenario.stringify 0 tt
                Scenario.heap0).1
             (<["pwa" := VRef 1]> {["port" := VNum 3003]}) 1
             eq_refl eq_refl) in Hicons.
  exact Hicons.
Defined.

Example manifest_body :
  bodies_sent (manifestHandler (fun file => "/" +:+ file) Scenario.stringify 0 tt
                 Scenario.heap0).2
  = ["{icons,name,display}"].
Proof. vm_compute. reflexivity. Qed.

(** * Further properties of the code *)

(** ** Substrings and file names *)

Section MoreStringFacts.

Lemma substring_at_start (n : nat) (s m : string) :
  String.substring 0 n s = m -> String.length m = n ->
  exists post, s = m +:+ post.
Proof.
  revert s m. induction n as [|n IH]; intros s m Hsub Hlen.
  - destruct m; [|discriminate]. now exists s.
  - destruct s as [|c s]; simpl in Hsub.
    + subst m. discriminate.
    + destruct m as [|c' m]; [discriminate|].
      injection Hsub as -> Hsub. injection Hlen as Hlen.
      destruct (IH s m Hsub Hlen) as [post ->]. now exists post.
Qed.

Lemma substring_split (k n : nat) (s m : string) :
  String.substring k n s = m -> String.length m = n ->
  exists pre post, s = pre +:+ m +:+ post.
Proof.
  revert s. induction k as [|k IH]; intros s Hsub Hlen.
  - destruct (substring_at_start n s m Hsub Hlen) as [post ->].
    now exists EmptyString, post.
  - destruct s as [|c s].
    + assert (m = EmptyString) as ->.
      { destruct n; simpl in Hsub; now subst. }
      now exists EmptyString, EmptyString.
    + simpl in Hsub. destruct (IH s Hsub Hlen) as (pre & post & ->).
      now exists (String c pre), post.
Qed.

Lemma substring_of_app (pre m post : string) :
  String.substring (String.length pre) (String.length m) (pre +:+ m +:+ post)
  = m.
Proof.
  induction pre as [|c pre IH]; [|exact IH].
  change (String.substring 0 (String.length m) (m +:+ post) = m).
  induction m as [|c m IHm].
  - now destruct post.
  - change (String c (String.substring 0 (String.length m) (m +:+ post))
            = String c m).
    now rewrite IHm.
Qed.

(** [occurs_in] is being an infix. *)
Lemma occurs_in_infix (pat s : string) :
  occurs_in pat s <-> exists pre post, s = pre +:+ pat +:+ post.
Proof.
  split.
  - intros [m Hm]. eapply substring_split; [exact Hm|reflexivity].
  - intros (pre & post & ->). exists (String.length pre).
    apply substring_of_app.
Qed.

Lemma prefix_app (a b : string) :
  String.prefix a b = true -> exists rest, b = a +:+ rest.
Proof.
  revert b. induction a as [|c a IH]; intros b H.
  - now exists b.
  - destruct b as [|c' b]; [discriminate|]. simpl in H.
    destruct (ascii_dec c c') as [->|]; [|discriminate].
    destruct (IH b H) as [rest ->]. now exists rest.
Qed.

Lemma app_string_assoc (a b c : string) : (a +:+ b) +:+ c = a +:+ b +:+ c.
Proof.
  induction a as [|x a IH]; [reflexivity|].
  change (String x ((a +:+ b) +:+ c) = String x (a +:+ b +:+ c)).
  now rewrite IH.
Qed.

Lemma split_app (sep : ascii) (a b : string) :
  JsString.split sep (a +:+ String sep b)
  = (JsString.split sep a ++ JsString.split sep b)%list.
Proof.
  induction a as [|c a IH]; simpl.
  - now rewrite Ascii.eqb_refl.
  - destruct (Ascii.eqb c sep); rewrite IH; [reflexivity|].
    pose proof (split_nonempty sep a) as Hne.
    now destruct (JsString.split sep a).
Qed.

Lemma split_without_sep (sep : ascii) (s : string) :
  ~ List.In sep (list_ascii_of_string s) -> JsString.split sep s = [s].
Proof.
  induction s as [|c s IH]; simpl; [reflexivity|]. intros Hno.
  destruct (Ascii.eqb c sep) eqn:Hc.
  - apply Ascii.eqb_eq in Hc. tauto.
  - rewrite IH by tauto. reflexivity.
Qed.

Lemma last_app_nonempty {A : Type} (l1 l2 : list A) (d : A) :
  l2 <> [] -> List.last (l1 ++ l2)%list d = List.last l2 d.
Proof.
  intros Hne. induction l1 as [|x l1 IH]; [reflexivity|].
  simpl. rewrite IH. destruct (l1 ++ l2)%list eqn:Happ; [|reflexivity].
  apply app_eq_nil in Happ. tauto.
Qed.

Lemma filter_idempotent {A : Type} (f : A -> bool) (l : list A) :
  List.filter f (List.filter f l) = List.filter f l.
Proof.
  induction l as [|x l IH]; simpl; [reflexivity|].
  destruct (f x) eqn:Hx; simpl; [rewrite Hx, IH|]; auto.
Qed.

End MoreStringFacts.

(** X1: the file name of [dir/name] is [name] whenever [name] has no "/",
    whatever the directory part; a path without "/" is its own file name;
    and a file name never contains "/". *)
Theorem fileName_of_dir_and_name (dir name : string) :
  ~ List.In "/"%char (list_ascii_of_string name) ->
  fileName (dir +:+ "/" +:+ name) = name
  /\ fileName name = name
  /\ (forall p, ~ List.In "/"%char (list_ascii_of_string (fileName p))).
Proof.
  intros Hno. unfold fileName, JsString.pop.
  change ("/" +:+ name) with (String "/"%char name).
  rewrite split_app, (split_without_sep _ name Hno).
  rewrite last_app_nonempty by discriminate.
  repeat split. apply fileName_no_slash.
Qed.

Lemma fileName_of_dir_and_name_witness :
  ~ List.In "/"%char (list_ascii_of_string "mod-home.css")
  /\ fileName ("/public/build" +:+ "/" +:+ "mod-home.css") = "mod-home.css".
Proof.
  assert (H : ~ List.In "/"%char (list_ascii_of_string "mod-home.css")).
  { simpl. intuition discriminate. }
  split; [exact H|].
  exact (proj1 (fileName_of_dir_and_name "/public/build" "mod-home.css" H)).
Defined.

(** X2: filtering is idempotent and works entry by entry: filtering an
    already filtered list changes nothing, and filtering a concatenation is
    concatenating the filtered parts. *)
Theorem asset_filters_compose (l1 l2 : list string) (mod_ : string) :
  currentRouteCss (currentRouteCss l1 mod_) mod_ = currentRouteCss l1 mod_
  /\ currentRouteJs (currentRouteJs l1) = currentRouteJs l1
  /\ currentRouteCss (l1 ++ l2)%list mod_
     = (currentRouteCss l1 mod_ ++ currentRouteCss l2 mod_)%list
  /\ currentRouteJs (l1 ++ l2)%list
     = (currentRouteJs l1 ++ currentRouteJs l2)%list.
Proof.
  unfold currentRouteCss, currentRouteJs.
  repeat split; auto using filter_idempotent, List.filter_app.
Qed.

(** X3: a module identifier that is itself a piece of the marker "mod-"
    (such as "mod", "o" or "-") switches the stylesheet filter off: every
    stylesheet is kept, those of all other modules included. *)
Theorem css_filter_module_inside_marker (allCss : list string) (mod_ : string) :
  occurs_in mod_ "mod-" ->
  currentRouteCss allCss mod_ = allCss.
Proof.
  intros Hocc. apply occurs_in_infix in Hocc as (pre & post & Hmarker).
  assert (Hkeep : forall css, keepCss mod_ css = true).
  { intros css. destruct (keepCss mod_ css) eqn:Hk; [reflexivity|].
    apply keepCss_spec in Hk as [Hstart Hno]. exfalso. apply Hno.
    apply prefix_app in Hstart as [rest Hrest].
    apply occurs_in_infix. exists pre, (post +:+ rest).
    rewrite Hrest, Hmarker. now rewrite !app_string_assoc. }
  unfold currentRouteCss.
  induction allCss as [|css l IH]; simpl; [reflexivity|].
  now rewrite Hkeep, IH.
Qed.

Lemma css_filter_module_inside_marker_witness :
  occurs_in "mod" "mod-"
  /\ currentRouteCss ["/b/common.css"; "/b/mod-home.css"; "/b/mod-blog.css"] "mod"
     = ["/b/common.css"; "/b/mod-home.css"; "/b/mod-blog.css"].
Proof.
  assert (H : occurs_in "mod" "mod-") by (exists 0%nat; reflexivity).
  split; [exact H|].
  exact (css_filter_module_inside_marker
           ["/b/common.css"; "/b/mod-home.css"; "/b/mod-blog.css"] "mod" H).
Defined.

(** ** More on SEO aggregation *)

Section MoreSeo.

Implicit Types (chain : list RouteDefinition) (r : RouteDefinition).

Lemma seoDetailsOf_app chain1 chain2 :
  seoDetailsOf (chain1 ++ chain2)%list
  = seoDetailsOf chain2 ∪ seoDetailsOf chain1.
Proof.
  induction chain2 as [|r chain2 IH] using rev_ind.
  - rewrite app_nil_r, seoDetailsOf_nil. now rewrite (left_id_L ∅ (∪)).
  - rewrite app_assoc, !seoDetailsOf_snoc, IH. now rewrite (assoc_L (∪)).
Qed.

Lemma seoDetailsOf_singleton r : seoDetailsOf [r] = Lodash.get (seo r) ∅.
Proof.
  change [r] with ([] ++ [r])%list.
  rewrite seoDetailsOf_snoc, seoDetailsOf_nil. now rewrite (right_id_L ∅ (∪)).
Qed.

End MoreSeo.

(** X4: aggregation composes along the chain: the aggregate of a chain cut
    in two is the aggregate of the deeper part, completed by the aggregate of
    the part nearer the root; a one-route chain aggregates to that route's
    metadata; and walking the same chain twice changes nothing. *)
Theorem seo_aggregation_composes (chain1 chain2 : list RouteDefinition)
    (r : RouteDefinition) :
  seoDetailsOf (chain1 ++ chain2)%list
  = seoDetailsOf chain2 ∪ seoDetailsOf chain1
  /\ seoDetailsOf [r] = Lodash.get (seo r) ∅
  /\ seoDetailsOf (chain1 ++ chain1)%list = seoDetailsOf chain1.
Proof.
  split; [apply seoDetailsOf_app|]. split; [apply seoDetailsOf_singleton|].
  rewrite seoDetailsOf_app. apply (idemp_L (∪)).
Qed.

(** X5: a route that declares no [seo], or an empty one, is transparent:
    wherever it stands in the chain, the aggregate is the same without it. *)
Theorem seo_route_without_metadata_transparent
    (chain1 chain2 : list RouteDefinition) (r : RouteDefinition) :
  seo r = None \/ seo r = Some ∅ ->
  seoDetailsOf (chain1 ++ r :: chain2)%list
  = seoDetailsOf (chain1 ++ chain2)%list.
Proof.
  intros Hr.
  assert (Hempty : seoDetailsOf [r] = ∅).
  { rewrite seoDetailsOf_singleton. now destruct Hr as [-> | ->]. }
  change (r :: chain2) with ([r] ++ chain2)%list.
  rewrite !seoDetailsOf_app, Hempty. now rewrite (right_id_L ∅ (∪)).
Qed.

Lemma seo_route_without_metadata_transparent_witness :
  (seo Scenario.bare = None \/ seo Scenario.bare = Some ∅)
  /\ seoDetailsOf [Scenario.root; Scenario.bare; Scenario.leafDesc]
     = seoDetailsOf [Scenario.root; Scenario.leafDesc].
Proof.
  assert (H : seo Scenario.bare = None \/ seo Scenario.bare = Some ∅)
    by (left; reflexivity).
  split; [exact H|].
  exact (seo_route_without_metadata_transparent
           [Scenario.root] [Scenario.leafDesc] Scenario.bare H).
Defined.

(** ** The error component *)

(** X6: whatever is thrown or rejected, the error view receives an [Error]
    carrying a non-zero [statusCode]: the declared one when it is non-zero,
    otherwise 500; a value that is not an [Error] is wrapped, its text the
    message, with 500; and normalising twice is normalising once. *)
Theorem error_view_receives_status
    {Assets RouteTable Storage Api History Store View : Type}
    (E : Collaborators Assets RouteTable Storage Api History Store View)
    (err : JsThrown) (store : Store) :
  (exists message statusCode,
     getErrorComponent E err store
     = renderErrorPage E (ErrorObject message (Some statusCode)) store
     /\ statusCode <> 0
     /\ (forall m declared,
           err = ErrorObject m (Some declared) -> declared <> 0 ->
           message = m /\ statusCode = declared)
     /\ (forall m, err = ErrorObject m None \/ err = ErrorObject m (Some 0) ->
           message = m /\ statusCode = 500)
     /\ (forall value, err = NotAnError value ->
           message = value /\ statusCode = 500))
  /\ withDefaultStatusCode (asError (withDefaultStatusCode (asError err)))
     = withDefaultStatusCode (asError err).
Proof.
  assert (Hor : forall d, js_or d 500 <> 0).
  { intros [d|]; simpl; [|lia]. destruct (d =? 0) eqn:Hd; lia. }
  split.
  - destruct err as [m declared|value]; unfold getErrorComponent; simpl.
    + exists m, (js_or declared 500). split; [reflexivity|].
      split; [apply Hor|]. split; [|split].
      * intros m' d [= -> ->] Hd. split; [reflexivity|]. simpl.
        destruct (d =? 0) eqn:Hz; [lia|reflexivity].
      * intros m' [[= -> ->]|[= -> ->]]; now split.
      * discriminate.
    + exists value, 500. split; [reflexivity|]. split; [lia|].
      split; [discriminate|]. split.
      * intros m [H|H]; discriminate H.
      * now intros v [= ->].
  - destruct err as [m [d|]|value]; simpl; try reflexivity.
    destruct (d =? 0) eqn:Hd; simpl; [reflexivity|now rewrite Hd].
Qed.

(** ** More on the catch-all handler *)

Section MoreHandlerFacts.

Context {Assets RouteTable Storage Api History Store View : Type}.
Implicit Types E : Collaborators Assets RouteTable Storage Api History Store View.
Implicit Types (req : Request Assets) (store : Store) (err : JsThrown).

(** Two sets of collaborators that preload, fail and succeed alike are
    answered alike. *)
Lemma handler_congr E E' req :
  preload E' req = preload E req ->
  initialStore E' = initialStore E ->
  (forall store st err,
     catchCallback E' req store st err = catchCallback E req store st err) ->
  (forall store st, thenCallback E' req store st = thenCallback E req store st) ->
  handler E' req = handler E req.
Proof.
  intros Hpre Hstore Hcatch Hthen. unfold handler.
  rewrite Hpre, Hstore.
  destruct (preload E req) as [run|err]; [|now rewrite Hcatch].
  destruct (Promise_all (promises run)); [|now rewrite Hcatch].
  rewrite Hthen.
  destruct (thenCallback E req (store_settled run) 200) as [st [calls|err]];
    [reflexivity|now rewrite Hcatch].
Qed.

Lemma respond_shape E req o calls :
  respond E req o = Return calls ->
  exists st c, calls = [ResStatus st; c] /\ ends_response c = true.
Proof.
  destruct o as [v st|v st|u st|v st]; simpl;
    try (intros H; apply sendHtml_calls in H as (html & _ & ->); eauto).
  intros [= <-]. eauto.
Qed.

End MoreHandlerFacts.



(** X8: only the renderer of the branch taken has a part in the answer.
    With an empty matched chain the page renderer is never consulted, with a
    non-empty one the not-found renderer is never consulted. *)
Theorem renderer_of_other_branch_unused
    {Assets RouteTable Storage Api History Store View : Type}
    (E : Collaborators Assets RouteTable Storage Api History Store View)
    (req : Request Assets) :
  (currentRoutes E req = [] ->
   forall page,
     handler (withRenderers E (renderNotFoundPage E) page) req = handler E req)
  /\ (currentRoutes E req <> [] ->
      forall notFound,
        handler (withRenderers E notFound (renderRoutesByUrl E)) req
        = handler E req).
Proof.
  split.
  - intros Hchain page. apply handler_congr; try reflexivity.
    intros store st. unfold thenCallback, renderStage.
    change (currentRoutes (withRenderers E (renderNotFoundPage E) page) req)
      with (currentRoutes E req).
    rewrite Hchain. reflexivity.
  - intros Hchain notFound. apply handler_congr; try reflexivity.
    intros store st. unfold thenCallback, renderStage.
    change (currentRoutes (withRenderers E notFound (renderRoutesByUrl E)) req)
      with (currentRoutes E req).
    destruct (currentRoutes E req) as [|r chain] eqn:Hc; [contradiction|].
    reflexivity.
Qed.



(** X10: a redirect is decided before anything is serialized: when the
    render leaves a non-empty redirect target, the answer is the same
    whatever the serializer and the error view are. *)
Theorem redirect_ignores_serializer
    {Assets RouteTable Storage Api History Store View : Type}
    (E : Collaborators Assets RouteTable Storage Api History Store View)
    (req : Request Assets) (run : PreloadRun Store)
    (view : View) (context' : RequestContext Storage Api) :
  preload E req = Return run ->
  Promise_all (promises run) = Fulfilled ->
  renderStage E req (store_settled run) = Return (view, context') ->
  truthy (url context') = true ->
  forall errorView serializer,
    handler (withOutput E errorView serializer) req = handler E req.
Proof.
  intros Hpre Hall Hstage Hurl errorView serializer.
  unfold handler, thenCallback.
  change (preload (withOutput E errorView serializer) req)
    with (preload E req).
  rewrite Hpre, Hall.
  change (renderStage (withOutput E errorView serializer) req (store_settled run))
    with (renderStage E req (store_settled run)).
  now rewrite Hstage, Hurl.
Qed.

Lemma redirect_ignores_serializer_witness :
  truthy (Some "/login") = true
  /\ handler (withOutput Scenario.redirects Scenario.brokenErrorPage
                Scenario2.pickyMarkup) (Scenario.request "/home")
     = handler Scenario.redirects (Scenario.request "/home").
Proof.
  split; [reflexivity|].
  exact (redirect_ignores_serializer Scenario.redirects
           (Scenario.request "/home")
           {| promises := [Fulfilled]; store_settled := tt |}
           "page"
           {| storage := tt; api := tt; pathname := "/home";
              status := None; url := Some "/login" |}
           eq_refl eq_refl eq_refl eq_refl
           Scenario.brokenErrorPage Scenario2.pickyMarkup).
Defined.

(** X11: every failure that happens before the render has returned (a throw
    of [getPreloadDataPromises], a rejected preload promise, a throw of the
    page or not-found render) is answered with the error document under 200,
    whatever status the error declares; if the error document cannot be
    produced, nothing is written. *)
Theorem early_failure_answered_under_200
    {Assets RouteTable Storage Api History Store View : Type}
    (E : Collaborators Assets RouteTable Storage Api History Store View)
    (req : Request Assets) (store : Store) (err : JsThrown) :
  preloadFailed E req store err
  \/ (exists run, preload E req = Return run
                  /\ Promise_all (promises run) = Fulfilled
                  /\ renderStage E req (store_settled run) = Throw err
                  /\ store = store_settled run) ->
  match errorDocument E req store err with
  | Return doc => handler E req = Answered [ResStatus 200; ResSend doc]
  | Throw _ => calls_of (handler E req) = []
  end.
Proof.
  intros [Hfail|(run & Hpre & Hall & Hstage & ->)].
  - rewrite (handler_preloadFailed E req store err Hfail).
    rewrite catchCallback_errorDocument.
    destruct (errorDocument E req store err); simpl; [reflexivity|].
    now destruct (preload E req).
  - unfold handler, thenCallback. rewrite Hpre, Hall, Hstage.
    rewrite catchCallback_errorDocument.
    now destruct (errorDocument E req (store_settled run) err).
Qed.

Lemma early_failure_answered_under_200_witness :
  preloadFailed Scenario.preloadRejects403 (Scenario.request "/home") tt
    Scenario.forbidden
  /\ handler Scenario.preloadRejects403 (Scenario.request "/home")
     = Answered
         [ResStatus 200;
          ResSend "<!DOCTYPE html><html><head><link /build/common.css><link /build/mod-home.css><script /build/app.js></head><body>error 403: forbidden</body></html>"].
Proof.
  assert (Hfail : preloadFailed Scenario.preloadRejects403
                    (Scenario.request "/home") tt Scenario.forbidden).
  { right. eexists. repeat split; reflexivity. }
  split; [exact Hfail|].
  exact (early_failure_answered_under_200 Scenario.preloadRejects403
           (Scenario.request "/home") tt Scenario.forbidden (or_introl Hfail)).
Defined.

(** X12: whenever the handler answers, it makes exactly two calls on [res]:
    one [status] call followed by the call that ends the response; it sets
    no header. *)
Theorem handler_calls_shape
    {Assets RouteTable Storage Api History Store View : Type}
    (E : Collaborators Assets RouteTable Storage Api History Store View)
    (req : Request Assets) (calls : list ResCall) :
  handler E req = Answered calls ->
  exists st c,
    calls = [ResStatus st; c]
    /\ ends_response c = true
    /\ status_set calls = st
    /\ (forall name value, ResSetHeader name value ∉ calls).
Proof.
  intros Hhandler.
  pose proof (handler_respond E req) as H.
  destruct (renderOutcome E req) as [o|].
  - destruct H as (calls' & Hrespond & Hh).
    assert (calls' = calls) as -> by congruence.
    destruct (respond_shape E req o calls Hrespond) as (st & c & -> & Hc).
    exists st, c. repeat split; try assumption.
    + now destruct c.
    + intros name value Hin.
      apply elem_of_cons in Hin as [Hin|Hin]; [discriminate|].
      apply list_elem_of_singleton in Hin. subst c. discriminate.
  - destruct H as (store & st & err & e & _ & [Hh|Hh]); congruence.
Qed.

Lemma handler_calls_shape_witness :
  handler Scenario.redirects301 (Scenario.request "/home")
  = Answered [ResStatus 301; ResRedirect "/login"]
  /\ exists st c,
       [ResStatus 301; ResRedirect "/login"] = [ResStatus st; c]
       /\ ends_response c = true.
Proof.
  split; [reflexivity|].
  destruct (handler_calls_shape Scenario.redirects301
              (Scenario.request "/home")
              [ResStatus 301; ResRedirect "/login"] eq_refl)
    as (st & c & Hcalls & Hends & _).
  exists st, c. split; assumption.
Defined.

(** X13: how the handler can fail to answer.  An exception leaves the
    handler only when [getPreloadDataPromises] threw and the error path then
    threw as well; the promise chain ends in an unhandled rejection only
    when [getPreloadDataPromises] returned and the error path, entered from
    a rejection or a throw in the [then] callback, threw. *)
Theorem unanswered_requests
    {Assets RouteTable Storage Api History Store View : Type}
    (E : Collaborators Assets RouteTable Storage Api History Store View)
    (req : Request Assets) (e : JsThrown) :
  (handler E req = Propagated e <->
   exists err, preload E req = Throw err
               /\ catchCallback E req (initialStore E) 200 err = Throw e)
  /\ (handler E req = UnhandledRejection e ->
      exists run st err,
        preload E req = Return run
        /\ catchCallback E req (store_settled run) st err = Throw e).
Proof.
  unfold handler. split.
  - destruct (preload E req) as [run|err].
    + split.
      * destruct (Promise_all (promises run)) as [|err].
        -- destruct (thenCallback E req (store_settled run) 200)
             as [st [calls|err]]; [discriminate|].
           unfold settle. now destruct (catchCallback E req _ st err).
        -- unfold settle. now destruct (catchCallback E req _ 200 err).
      * intros (err & Hpre & _). discriminate.
    + split.
      * destruct (catchCallback E req (initialStore E) 200 err) eqn:Hc;
          [discriminate|]. intros [= <-]. eauto.
      * intros (err' & [= <-] & ->). reflexivity.
  - destruct (preload E req) as [run|err].
    + destruct (Promise_all (promises run)) as [|err].
      * destruct (thenCallback E req (store_settled run) 200)
          as [st [calls|err]]; [discriminate|].
        unfold settle.
        destruct (catchCallback E req _ st err) eqn:Hc; [discriminate|].
        intros [= <-]. eauto 6.
      * unfold settle.
        destruct (catchCallback E req _ 200 err) eqn:Hc; [discriminate|].
        intros [= <-]. eauto 6.
    + now destruct (catchCallback E req (initialStore E) 200 err).
Qed.

Example sync_failure_propagates :
  handler Scenario2.preloadThrowsErrorViewThrows (Scenario.request "/home")
  = Propagated (ErrorObject "error view failed" None).
Proof. reflexivity. Qed.

(** ** More on the manifest handler *)

(** X14: when [config.pwa] is not an object of the heap (the property is
    missing, or holds a primitive), the handler writes nothing into the
    heap and still answers once, with [JSON.stringify] of whatever
    [config.pwa] is. *)
Theorem manifest_without_pwa
    {Req : Type} (require : string -> string)
    (JSON_stringify : gmap nat (gmap string JsVal) -> JsVal -> string)
    (config : nat) (req : Req) (heap : gmap nat (gmap string JsVal)) :
  (forall p, getProp heap (VRef config) "pwa" = VRef p -> heap !! p = None) ->
  (manifestHandler require JSON_stringify config req heap).1 = heap
  /\ bodies_sent (manifestHandler require JSON_stringify config req heap).2
     = [JSON_stringify heap (getProp heap (VRef config) "pwa")]
  /\ responses_emitted (manifestHandler require JSON_stringify config req heap).2
     = 1%nat.
Proof.
  intros Hno.
  assert (Hset : lodash_set heap (getProp heap (VRef config) "pwa") "icons"
                   (icons require) = heap).
  { destruct (getProp heap (VRef config) "pwa") as [| | | | |p] eqn:Hpwa;
      try reflexivity.
    unfold lodash_set. now rewrite (Hno p eq_refl). }
  unfold manifestHandler. cbn [fst snd]. rewrite Hset. repeat split.
Qed.

Lemma manifest_without_pwa_witness :
  getProp Scenario2.heapNoPwa (VRef 0) "pwa" = VUndefined
  /\ (manifestHandler (fun file => file) Scenario.stringify 0 tt
        Scenario2.heapNoPwa).1
     = Scenario2.heapNoPwa.
Proof.
  split; [reflexivity|].
  refine (proj1 (manifest_without_pwa (fun file => file) Scenario.stringify
                   0 tt Scenario2.heapNoPwa _)).
  intros p Hp. discriminate Hp.
Defined.

(** X15: the manifest served does not depend on what [config.pwa.icons]
    held before: two heaps that differ only there are left identical by a
    request, and the bodies sent are the same. *)
Theorem manifest_overwrites_icons
    {Req : Type} (require : string -> string)
    (JSON_stringify : gmap nat (gmap string JsVal) -> JsVal -> string)
    (config : nat) (req : Req)
    (heap : gmap nat (gmap string JsVal))
    (cfg pwaObj : gmap string JsVal) (p : nat) (previous : JsVal) :
  heap !! config = Some cfg ->
  cfg !! "pwa" = Some (VRef p) ->
  heap !! p = Some pwaObj ->
  manifestHandler require JSON_stringify config req
    (<[p := <["icons" := previous]> pwaObj]> heap)
  = manifestHandler require JSON_stringify config req heap.
Proof.
  intros Hcfg Hpwa Hp.
  unfold manifestHandler.
  rewrite (config_pwa_after_set config heap cfg p pwaObj previous Hcfg Hpwa Hp).
  rewrite (getProp_config_pwa config heap cfg p Hcfg Hpwa).
  rewrite (lodash_set_ref _ p (<["icons" := previous]> pwaObj))
    by apply lookup_insert_eq.
  rewrite (lodash_set_ref heap p pwaObj _ _ Hp).
  now rewrite !insert_insert_eq.
Qed.

Lemma manifest_overwrites_icons_witness :
  Scenario.heap0 !! 1%nat
  = Some (<["name" := VStr "React PWA"]> {["display" := VStr "standalone"]})
  /\ manifestHandler (fun file => file) Scenario.stringify 0 tt
       (<[1%nat := <["icons" := VStr "stale"]>
                     (<["name" := VStr "React PWA"]>
                        {["display" := VStr "standalone"]})]> Scenario.heap0)
     = manifestHandler (fun file => file) Scenario.stringify 0 tt Scenario.heap0.
Proof.
  split; [reflexivity|].
  exact (manifest_overwrites_icons (fun file => file) Scenario.stringify 0 tt
           Scenario.heap0
           (<["pwa" := VRef 1]> {["port" := VNum 3003]})
           (<["name" := VStr "React PWA"]> {["display" := VStr "standalone"]})
           1 (VStr "stale") eq_refl eq_refl eq_refl).
Defined.

(** ** The globals handler *)

(** X16: [/_globals] answers once with the unfiltered asset lists: every
    stylesheet and script the page handler attaches for the same request is
    among those it reports, in the same order; and its answer depends on the
    request through the assets only, not through the path. *)
Theorem globals_reports_all_assets
    {Assets RouteTable Storage Api History Store View : Type}
    (E : Collaborators Assets RouteTable Storage Api History Store View)
    (JSON_stringify_globals : RouteTable -> list string -> list string -> string)
    (req : Request Assets) :
  bodies_sent (globalsHandler E JSON_stringify_globals req)
  = [JSON_stringify_globals (Routes E) (allCss E req) (allJs E req)]
  /\ responses_emitted (globalsHandler E JSON_stringify_globals req) = 1%nat
  /\ pageCss E req `sublist_of` allCss E req
  /\ pageJs E req `sublist_of` allJs E req
  /\ (forall otherPath,
        globalsHandler E JSON_stringify_globals
          {| req_path := otherPath; req_assets := req_assets req |}
        = globalsHandler E JSON_stringify_globals req).
Proof.
  repeat split; unfold pageCss, pageJs, currentRouteCss, currentRouteJs;
    apply filter_sublist.
Qed.

(** ** Module initialisation *)

Section CurrentDirFacts.

Lemma isServerScript_occurs (arg : string) :
  isServerScript arg = true <-> occurs_in "/server.js" arg.
Proof.
  unfold isServerScript. rewrite negb_true_iff, Z.eqb_neq, indexOf_absent.
  split; [|tauto]. intros Hnn.
  destruct (JsString.indexOf arg "/server.js" =? -1) eqn:Hidx.
  - apply Z.eqb_eq, indexOf_absent in Hidx. contradiction.
  - apply Z.eqb_neq in Hidx. unfold JsString.indexOf in Hidx. unfold occurs_in.
    destruct (String.index 0 "/server.js" arg) as [n|] eqn:Hi; [|contradiction].
    exists n. eapply String.index_correct1; exact Hi.
Qed.

Lemma find_first {A : Type} (f : A -> bool) (l : list A) :
  match List.find f l with
  | Some x =>
      exists i : nat, l !! i = Some x /\ f x = true
        /\ forall (j : nat) y, (j < i)%nat -> l !! j = Some y -> f y = false
  | None => forall y, y ∈ l -> f y = false
  end.
Proof.
  induction l as [|a l IH]; simpl.
  - intros y Hy. inversion Hy.
  - destruct (f a) eqn:Ha.
    + exists 0%nat. repeat split; [assumption|]. intros j y Hj. lia.
    + destruct (List.find f l) as [x|].
      * destruct IH as (i & Hi & Hx & Hbefore).
        exists (S i). repeat split; try assumption.
        intros [|j] y Hj Hy; simpl in Hy; [congruence|].
        apply (Hbefore j); [lia|assumption].
      * intros y Hy. apply elem_of_cons in Hy as [->|Hy]; auto.
Qed.

End CurrentDirFacts.

(** X17: [currentDir] is [__dirname] unless [NODE_ENV] is "production" and
    some command-line argument contains "/server.js"; it is then the
    directory of the first such argument. *)
Theorem currentDir_choice (path_dirname : string -> string)
    (dirname_ : string) (NODE_ENV : option string) (argv : list string) :
  (NODE_ENV <> Some "production" ->
   currentDir path_dirname dirname_ NODE_ENV argv = dirname_)
  /\ (NODE_ENV = Some "production" ->
      match findServerScript argv with
      | Some filename =>
          currentDir path_dirname dirname_ NODE_ENV argv = path_dirname filename
          /\ exists i : nat,
               argv !! i = Some filename
               /\ occurs_in "/server.js" filename
               /\ forall (j : nat) arg, (j < i)%nat -> argv !! j = Some arg ->
                    ~ occurs_in "/server.js" arg
      | None =>
          currentDir path_dirname dirname_ NODE_ENV argv = dirname_
          /\ forall arg, arg ∈ argv -> ~ occurs_in "/server.js" arg
      end).
Proof.
  split.
  - intros Hne. unfold currentDir. destruct NODE_ENV as [env|]; [|reflexivity].
    destruct (String.eqb env "production") eqn:Henv; [|reflexivity].
    apply String.eqb_eq in Henv. congruence.
  - intros ->. unfold currentDir, findServerScript. simpl String.eqb. cbv iota.
    pose proof (find_first isServerScript argv) as Hfind.
    destruct (List.find isServerScript argv) as [filename|].
    + destruct Hfind as (i & Hi & Hx & Hbefore).
      apply isServerScript_occurs in Hx.
      assert (Htruthy : truthy (Some filename) = true).
      { destruct filename; [|reflexivity].
        destruct Hx as [m Hm]. destruct m; discriminate Hm. }
      rewrite Htruthy. split; [reflexivity|].
      exists i. repeat split; try assumption.
      intros j arg Hj Harg Hocc. apply isServerScript_occurs in Hocc.
      rewrite (Hbefore j arg Hj Harg) in Hocc. discriminate.
    + split; [reflexivity|]. intros arg Harg Hocc.
      apply isServerScript_occurs in Hocc.
      rewrite (Hfind arg Harg) in Hocc. discriminate.
Qed.

Example currentDir_production :
  currentDir Scenario2.dirname "/app/src" (Some "production")
    ["node"; "/srv/build/server.js"; "/x/server.js"]
  = "/srv/build".
Proof. reflexivity. Qed.

Example currentDir_development :
  currentDir Scenario2.dirname "/app/src" (Some "development")
    ["node"; "/srv/build/server.js"]
  = "/app/src".
Proof. reflexivity. Qed.

(** ** Rejections among the preload promises *)

Section MorePromiseFacts.

Lemma Promise_all_Fulfilled (promises : list Settlement) :
  Promise_all promises = Fulfilled
  <-> Forall (fun p => p = Fulfilled) promises.
Proof.
  induction promises as [|[|reason] rest IH]; simpl.
  - split; [constructor|reflexivity].
  - rewrite IH. split; [now constructor|]. now inversion 1.
  - split; [discriminate|]. inversion 1. discriminate.
Qed.

Lemma Promise_all_Rejected (promises : list Settlement) (err : JsThrown) :
  Promise_all promises = Rejected err -> Rejected err ∈ promises.
Proof.
  induction promises as [|[|reason] rest IH]; simpl; [discriminate| |].
  - intros H. apply elem_of_cons. right. now apply IH.
  - intros [= ->]. apply elem_of_cons. now left.
Qed.

End MorePromiseFacts.

(** X18: the page is rendered only if every preload promise is fulfilled.
    As soon as one promise of the run is rejected, wherever it stands, the
    request takes the error path with the reason of one of the rejected
    promises, and the page and not-found renderers have no part in the
    answer. *)
Theorem rejection_anywhere_prevents_render
    {Assets RouteTable Storage Api History Store View : Type}
    (E : Collaborators Assets RouteTable Storage Api History Store View)
    (req : Request Assets) (run : PreloadRun Store) (reason : JsThrown) :
  preload E req = Return run ->
  Rejected reason ∈ promises run ->
  (exists err,
     Rejected err ∈ promises run
     /\ preloadFailed E req (store_settled run) err
     /\ handler E req
        = settle (catchCallback E req (store_settled run) 200 err))
  /\ (forall notFound page,
        handler (withRenderers E notFound page) req = handler E req).
Proof.
  intros Hpre Hin.
  destruct (Promise_all (promises run)) as [|err] eqn:Hall.
  - apply Promise_all_Fulfilled in Hall.
    rewrite Forall_forall in Hall. specialize (Hall _ Hin). discriminate.
  - assert (Hfail : preloadFailed E req (store_settled run) err).
    { right. exists run. repeat split; assumption. }
    split.
    + exists err. split; [now apply Promise_all_Rejected|].
      split; [exact Hfail|].
      unfold handler. now rewrite Hpre, Hall.
    + intros notFound page.
      rewrite (handler_preloadFailed E req _ err Hfail).
      now rewrite (handler_preloadFailed (withRenderers E notFound page)
                     req _ err Hfail).
Qed.

Lemma rejection_anywhere_prevents_render_witness :
  Rejected Scenario.boom ∈ [Fulfilled; Rejected Scenario.boom]
  /\ handler (withRenderers Scenario.preloadRejects
                (fun _ _ _ _ => Throw Scenario.forbidden)
                (fun _ _ _ _ _ _ _ => Throw Scenario.forbidden))
       (Scenario.request "/home")
     = handler Scenario.preloadRejects (Scenario.request "/home").
Proof.
  assert (Hin : Rejected Scenario.boom ∈ [Fulfilled; Rejected Scenario.boom]).
  { apply elem_of_cons. right. apply elem_of_cons. now left. }
  split; [exact Hin|].
  exact (proj2 (rejection_anywhere_prevents_render Scenario.preloadRejects
                  (Scenario.request "/home")
                  {| promises := [Fulfilled; Rejected Scenario.boom];
                     store_settled := tt |}
                  Scenario.boom eq_refl Hin)
           (fun _ _ _ _ => Throw Scenario.forbidden)
           (fun _ _ _ _ _ _ _ => Throw Scenario.forbidden)).
Defined.
